(** * voxblox_ros / tsdf_server.cc : the TSDF server's control layer

    A shallow embedding of [voxblox::TsdfServer] (the ROS node that feeds
    point clouds into a TSDF map and keeps a mesh of it), and the properties
    of its admission gate, its point filter, its mesh cycles and its
    services.

    The server is a class with members, two function-local statics and a
    number of external collaborators (tf, PCL, the TSDF integrator, the mesh
    integrator, the PLY writer, the layer (de)serialiser).  The members and
    the statics are fields of a state record; the collaborators are the
    fields of a type class; every call that leaves the server is recorded,
    in program order, in a trace. *)

From stdpp Require Import base gmap strings list.
From Stdlib Require Import ZArith Lia.

Local Open Scope Z_scope.

(** ** Numbers of the wire format *)

(** An IEEE 754 binary32 value ([float] of the source), as its bit pattern:
    bit 31 is the sign, bits 30..23 the biased exponent, bits 22..0 the
    fraction.  [std::isfinite] is false exactly on the infinities and the
    NaNs, the values whose exponent field is all ones. *)
Module Float32.

Definition float := Z.

Definition exponent (f : float) : Z := Z.land (Z.shiftr f 23) 255.

Definition fraction (f : float) : Z := Z.land f 8388607.

Definition isfinite (f : float) : bool := negb (exponent f =? 255).

Definition isinf (f : float) : bool := (exponent f =? 255) && (fraction f =? 0).

Definition isnan (f : float) : bool :=
  (exponent f =? 255) && negb (fraction f =? 0).

Definition one : float := 1065353216.          (* 0x3F800000 *)
Definition two : float := 1073741824.          (* 0x40000000 *)
Definition pos_inf : float := 2139095040.      (* 0x7F800000 *)
Definition neg_inf : float := 4286578688.      (* 0xFF800000 *)
Definition quiet_nan : float := 2143289344.    (* 0x7FC00000 *)

End Float32.

(** ** Time

    [ros::Time] and [ros::Duration] belong to roscpp, not to this
    repository; the server subtracts two stamps and compares the
    difference with a duration.  A [ros::Time] is a pair of [uint32_t]
    (seconds and nanoseconds), a [ros::Duration] a pair of [int32_t], so
    the difference of two stamps need not be a duration.  The fixed-width
    conversions are written out. *)

(** [static_cast<int32_t>], and the wrap of [int] arithmetic. *)
Definition to_int32 (n : Z) : Z :=
  (n + 2147483648) mod 4294967296 - 2147483648.

(** [uint64_t] arithmetic, and the conversion of a [uint64_t] to
    [int64_t]. *)
Definition to_uint64 (n : Z) : Z := n mod 18446744073709551616.

Definition to_int64 (n : Z) : Z :=
  (n + 9223372036854775808) mod 18446744073709551616 - 9223372036854775808.

(** [ros::Time]: [uint32_t sec, nsec]. *)
Record Time := mkTime {
  sec : Z;
  nsec : Z
}.

(** [ros::Duration]: [int32_t sec, nsec]. *)
Record Duration := mkDuration {
  d_sec : Z;
  d_nsec : Z
}.

(** A default constructed [ros::Time]. *)
Definition Time_zero : Time := mkTime 0 0.

(** [ros::normalizeSecNSecSigned], on which the constructor
    [Duration (int32_t sec, int32_t nsec)] ends: the nanoseconds are
    brought into [0, 10^9), and a number of seconds that is no [int32_t]
    makes it throw [std::runtime_error] ([None]).  The operators [/] and [%]
    of C++ truncate towards zero. *)
Definition normalizeSecNSecSigned (sec64 nsec64 : Z) : option Duration :=
  let nsec_part := Z.rem nsec64 1000000000 in
  let sec_part := sec64 + Z.quot nsec64 1000000000 in
  let nsec_part' :=
    if nsec_part <? 0 then nsec_part + 1000000000 else nsec_part in
  let sec_part' := if nsec_part <? 0 then sec_part - 1 else sec_part in
  if (sec_part' <? -2147483648) || (2147483647 <? sec_part') then None
  else Some (mkDuration sec_part' nsec_part').

(** [Time::operator-] as the releases of roscpp have had it.  The older
    one subtracts field by field after casting to [int32_t],
    [D ((int32_t) sec - (int32_t) rhs.sec, (int32_t) nsec - (int32_t)
    rhs.nsec)]: a difference of more than 2^31 seconds wraps around. *)
Definition Time_minus_by_casts (a b : Time) : option Duration :=
  normalizeSecNSecSigned
    (to_int32 (to_int32 (sec a) - to_int32 (sec b)))
    (to_int32 (to_int32 (nsec a) - to_int32 (nsec b))).

(** The newer one goes through the nanosecond counts,
    [d.fromNSec (toNSec () - rhs.toNSec ())], and [fromNSec] throws when the
    seconds are no [int32_t]. *)
Definition toNSec (t : Time) : Z :=
  to_uint64 (sec t * 1000000000 + nsec t).

Definition Duration_fromNSec (t : Z) : option Duration :=
  let sec64 := Z.quot t 1000000000 in
  if (sec64 <? -2147483648) || (2147483647 <? sec64) then None
  else normalizeSecNSecSigned (to_int32 sec64)
         (to_int32 (Z.rem t 1000000000)).

Definition Time_minus_by_fromNSec (a b : Time) : option Duration :=
  Duration_fromNSec (to_int64 (to_uint64 (toNSec a - toNSec b))).

(** [Duration::operator<]: seconds first, then nanoseconds. *)
Definition Duration_lt (d1 d2 : Duration) : bool :=
  (d_sec d1 <? d_sec d2)
  || ((d_sec d1 =? d_sec d2) && (d_nsec d1 <? d_nsec d2)).

(** The roscpp that the server is built against. *)
Inductive TimeSubtraction := minus_by_casts | minus_by_fromNSec.

Class Roscpp := {
  time_subtraction : TimeSubtraction
}.

Definition Time_minus {roscpp : Roscpp} (a b : Time) : option Duration :=
  match time_subtraction with
  | minus_by_casts => Time_minus_by_casts a b
  | minus_by_fromNSec => Time_minus_by_fromNSec a b
  end.

(** The condition [stamp - last_msg_time < min_time_between_msgs_] of the
    two pointcloud callbacks; [None] when the subtraction throws. *)
Definition too_soon {roscpp : Roscpp} (stamp last_msg_time : Time)
    (min_time_between_msgs : Duration) : option bool :=
  match Time_minus stamp last_msg_time with
  | Some elapsed => Some (Duration_lt elapsed min_time_between_msgs)
  | None => None
  end.
Arguments too_soon : simpl never.

(** What statements about time speak of: the nanoseconds that a stamp or a
    duration stands for, stamps and durations as the constructors of roscpp
    leave them (nanoseconds below 10^9, fields in their ranges), and stamps
    before 2^31 seconds. *)
Definition nanoseconds (t : Time) : Z := sec t * 1000000000 + nsec t.

Definition Duration_nanoseconds (d : Duration) : Z :=
  d_sec d * 1000000000 + d_nsec d.

Definition Time_normalized (t : Time) : bool :=
  (0 <=? sec t) && (sec t <? 4294967296)
  && (0 <=? nsec t) && (nsec t <? 1000000000).

Definition Duration_normalized (d : Duration) : bool :=
  (-2147483648 <=? d_sec d) && (d_sec d <? 2147483648)
  && (0 <=? d_nsec d) && (d_nsec d <? 1000000000).

Definition Time_early (t : Time) : bool :=
  (0 <=? sec t) && (sec t <? 2147483648)
  && (0 <=? nsec t) && (nsec t <? 1000000000).

(** ** Messages and point types *)

(** [sensor_msgs::PointField]: only the members the server touches. *)
Record PointField := mkPointField {
  name : string;
  datatype : Z
}.

(** [sensor_msgs::PointField::FLOAT32]. *)
Definition FLOAT32 : Z := 7.

Record Header := mkHeader {
  frame_id : string;
  stamp : Time
}.

(** [sensor_msgs::PointCloud2]: header, field descriptions and the raw
    bytes of the points. *)
Record PointCloud2 := mkPointCloud2 {
  header : Header;
  fields : list PointField;
  data : list Z
}.

(** [pcl::PointXYZRGB]: three [float] coordinates and four 8-bit colour
    channels. *)
Record PointXYZRGB := mkPointXYZRGB {
  x : Float32.float;
  y : Float32.float;
  z : Float32.float;
  r : Z;
  g : Z;
  b : Z;
  a : Z
}.

(** [voxblox::Point] (an Eigen 3-vector of [FloatingPoint = float]) and
    [voxblox::Color]. *)
Record Point := mkPoint {
  px : Float32.float;
  py : Float32.float;
  pz : Float32.float
}.

Record Color := mkColor {
  cr : Z;
  cg : Z;
  cb : Z;
  ca : Z
}.

Definition Pointcloud := list Point.
Definition Colors := list Color.

(** ** The point filter (tsdf_server.cc, lines 208-225)

    The loop runs over [pointcloud_pcl.points] by increasing index; a point
    with a coordinate that is not finite is skipped by [continue], every
    other point is pushed on the back of [points_C] and its colour on the
    back of [colors]. *)
Fixpoint collect_finite_points (points : list PointXYZRGB)
    (points_C : Pointcloud) (colors : Colors) : Pointcloud * Colors :=
  match points with
  | [] => (points_C, colors)
  | p :: rest =>
      if negb (Float32.isfinite (x p)) || negb (Float32.isfinite (y p))
         || negb (Float32.isfinite (z p))
      then collect_finite_points rest points_C colors
      else collect_finite_points rest
             (points_C ++ [mkPoint (x p) (y p) (z p)])
             (colors ++ [mkColor (r p) (g p) (b p) (a p)])
  end.

(** The horrible hack of lines 196-200: every field called "rgb" gets the
    datatype FLOAT32 before PCL parses the message. *)
Definition fix_rgb_field (f : PointField) : PointField :=
  if String.eqb (name f) "rgb" then mkPointField (name f) FLOAT32 else f.

Definition fix_rgb_fields (msg : PointCloud2) : PointCloud2 :=
  mkPointCloud2 (header msg) (List.map fix_rgb_field (fields msg)) (data msg).

(** What the statement of the filter speaks about: a sample with at least
    one coordinate that is not finite, and the point and the colour a sample
    is turned into. *)
Definition has_nonfinite_coordinate (p : PointXYZRGB) : bool :=
  negb (Float32.isfinite (x p) && Float32.isfinite (y p)
        && Float32.isfinite (z p)).

Definition all_finite (p : PointXYZRGB) : bool :=
  negb (has_nonfinite_coordinate p).

Definition point_of (p : PointXYZRGB) : Point := mkPoint (x p) (y p) (z p).

Definition color_of (p : PointXYZRGB) : Color :=
  mkColor (r p) (g p) (b p) (a p).

(** ** The voxel map and the mesh *)

(** [voxblox::BlockIndex], an Eigen vector of three integers. *)
Definition BlockIndex : Type := Z * Z * Z.

(** Modelled from the spec: the class [Block] is declared in the core
    library's headers, which are not among the sources.  Following the data
    model of the specification a block carries its voxel data and the
    dirty ("updated") flag that integration sets and mesh extraction
    clears. *)
Record Block (Voxels : Type) := mkBlock {
  voxels : Voxels;
  updated : bool
}.
Arguments mkBlock {Voxels} _ _.
Arguments voxels {Voxels} _.
Arguments updated {Voxels} _.

(** Modelled from the spec: [Layer<TsdfVoxel>] and [MeshLayer] are declared
    in headers that are not among the sources.  The specification describes
    the map as a store of allocated blocks and the mesh as a block
    partitioned artifact; both are finite maps from block indices.
    [Layer V] is [gmap BlockIndex (Block V)], [MeshLayer M] is
    [gmap BlockIndex M]. *)
Abbreviation Layer V := (gmap BlockIndex (Block V)).
Abbreviation MeshLayer M := (gmap BlockIndex M).

(** Modelled from the spec: the enumeration
    [Layer<TsdfVoxel>::BlockMergingStrategy] is declared in the layer's
    header, which is not among the sources.  The source names [kReplace];
    the specification speaks of merging or replacing blocks. *)
Inductive BlockMergingStrategy := kReplace | kMerge.

(** [voxblox::ColorMode], as the constructor selects it from the
    "color_mode" parameter. *)
Inductive ColorMode :=
  kColor | kHeight | kNormals | kLambert | kLambertColor | kGray.

(** ** The collaborators

    Everything the server calls and does not define: tf's transformer, PCL's
    message conversion, the TSDF integrator, the mesh integrator, the PLY
    writer and the layer (de)serialiser, with the types that only they
    look into.  State that a collaborator may change is passed in and handed
    back. *)
Class Carriers := {
  (** [voxblox::Transformation], a rigid transform *)
  Transformation : Type;
  (** the state behind [transformer_] *)
  Transformer : Type;
  (** the state of the integrator object other than the layer it points to *)
  TsdfIntegrator : Type;
  (** the voxel data of a block, and the mesh of a block *)
  Voxels : Type;
  Mesh : Type;
  (** the files that the PLY writer and the layer serialiser write and read *)
  FileSystem : Type
}.

Class Collaborators {carriers : Carriers} := {
  (** [Transformer::lookupTransform (from_frame, to_frame, timestamp, &T)]:
      [None] is the [false] return *)
  lookupTransform :
    Transformer -> string -> string -> Time ->
    option Transformation * Transformer;
  (** [pcl::fromROSMsg] *)
  fromROSMsg : PointCloud2 -> list PointXYZRGB;
  (** [TsdfIntegratorBase::integratePointCloud], which writes the layer that
      the integrator was constructed with, the server's [tsdf_map_] *)
  integratePointCloud :
    TsdfIntegrator -> Transformation -> Pointcloud -> Colors -> bool ->
    Layer Voxels -> TsdfIntegrator * Layer Voxels;
  (** [MeshIntegrator<TsdfVoxel>::generateMesh (only_mesh_updated_blocks,
      clear_updated_flag)], which reads and flags the server's [tsdf_map_]
      and writes its [mesh_layer_] *)
  MeshIntegrator_generateMesh :
    bool -> bool -> Layer Voxels -> MeshLayer Mesh ->
    Layer Voxels * MeshLayer Mesh;
  (** [outputMeshLayerAsPly (filename, mesh_layer)] *)
  outputMeshLayerAsPly :
    string -> MeshLayer Mesh -> FileSystem -> bool * FileSystem;
  (** [io::SaveLayer (layer, file_path)] *)
  SaveLayer : Layer Voxels -> string -> FileSystem -> bool * FileSystem;
  (** [io::LoadBlocksFromFile (file_path, strategy, layer_ptr)] *)
  LoadBlocksFromFile :
    string -> BlockMergingStrategy -> Layer Voxels -> FileSystem ->
    bool * Layer Voxels
}.

Section Server.

Context {carriers : Carriers} {roscpp : Roscpp} {collab : Collaborators}.

(** ** What leaves the server *)

(** The lines written with ROS_INFO and ROS_INFO_STREAM.  Durations and the
    text of the timing table are left out. *)
Inductive LogLine :=
  | Log_integrating (n_points : nat)
  | Log_finished_integrating (n_blocks : nat)
  | Log_timings
  | Log_layer_memory
  | Log_updating_mesh
  | Log_output_ply (filename : string)
  | Log_failed_output_ply (filename : string)
  | Log_mesh_timings.

(** What is handed to a publisher: the message is generated by a library
    function from the data recorded here. *)
Inductive Publication :=
  | Pub_mesh (mesh : MeshLayer Mesh) (mode : ColorMode)
  | Pub_tsdf_pointcloud (layer : Layer Voxels)
  | Pub_surface_pointcloud (layer : Layer Voxels)
  | Pub_occupied_nodes (layer : Layer Voxels)
  | Pub_tsdf_slice (layer : Layer Voxels) (free_plane_index : Z)
      (slice_level : Z).

Inductive Event :=
  | Ev_timer_start (tag : string)
  | Ev_timer_stop (tag : string)
  | Ev_info (line : LogLine)
  | Ev_lookupTransform (from_frame to_frame : string) (timestamp : Time)
      (found : bool)
  | Ev_integratePointCloud (T_G_C : Transformation) (points_C : Pointcloud)
      (colors : Colors) (is_freespace_pointcloud : bool)
  | Ev_newPoseCallback (T_G_C : Transformation)
  | Ev_generateMesh (only_mesh_updated_blocks clear_updated_flag : bool)
  | Ev_publish (topic : string) (frame : string) (what : Publication)
  | Ev_outputMeshLayerAsPly (filename : string) (success : bool)
  | Ev_SaveLayer (file_path : string) (success : bool)
  | Ev_LoadBlocksFromFile (file_path : string)
      (strategy : BlockMergingStrategy) (success : bool).

(** The events of the stages behind pose resolution: the filter (its timer
    and its log line), the integrator and the hook for the new pose. *)
Definition is_downstream_stage (e : Event) : bool :=
  match e with
  | Ev_timer_start tag | Ev_timer_stop tag =>
      String.eqb tag "ptcloud_preprocess"
  | Ev_info (Log_integrating _) | Ev_info (Log_finished_integrating _) => true
  | Ev_integratePointCloud _ _ _ _ => true
  | Ev_newPoseCallback _ => true
  | _ => false
  end.

(** What a trace says about the PLY writer and about the block loader: the
    calls in order, each with its arguments and its answer. *)
Definition exports_of (events : list Event) : list (string * bool) :=
  omap (fun e => match e with
                 | Ev_outputMeshLayerAsPly filename success =>
                     Some (filename, success)
                 | _ => None
                 end) events.

Definition loads_of (events : list Event)
    : list (string * BlockMergingStrategy * bool) :=
  omap (fun e => match e with
                 | Ev_LoadBlocksFromFile file_path strategy success =>
                     Some (file_path, strategy, success)
                 | _ => None
                 end) events.

(** ** The state *)

(** The members that the constructor sets from the parameters and nothing
    changes afterwards.  [slice_level_] is a [double]; it is only passed
    on. *)
Record Config := mkConfig {
  verbose_ : bool;
  world_frame_ : string;
  slice_level_ : Z;
  use_freespace_pointcloud_ : bool;
  publish_tsdf_info_ : bool;
  publish_slices_ : bool;
  min_time_between_msgs_ : Duration;
  mesh_filename_ : string;
  color_mode_ : ColorMode
}.

(** The server, the two [static ros::Time last_msg_time] of the pointcloud
    callbacks, the files, and the trace of what left the server so far
    (oldest event first). *)
Record World := mkWorld {
  config : Config;
  transformer_ : Transformer;
  tsdf_map_ : Layer Voxels;
  tsdf_integrator_ : TsdfIntegrator;
  mesh_layer_ : MeshLayer Mesh;
  insertPointcloud_last_msg_time : Time;
  insertFreespacePointcloud_last_msg_time : Time;
  filesystem : FileSystem;
  trace : list Event
}.

Definition set_transformer (t : Transformer) (w : World) : World :=
  mkWorld (config w) t (tsdf_map_ w) (tsdf_integrator_ w) (mesh_layer_ w)
    (insertPointcloud_last_msg_time w)
    (insertFreespacePointcloud_last_msg_time w) (filesystem w) (trace w).

Definition set_tsdf_map (l : Layer Voxels) (w : World) : World :=
  mkWorld (config w) (transformer_ w) l (tsdf_integrator_ w) (mesh_layer_ w)
    (insertPointcloud_last_msg_time w)
    (insertFreespacePointcloud_last_msg_time w) (filesystem w) (trace w).

Definition set_tsdf_integrator (i : TsdfIntegrator) (w : World) : World :=
  mkWorld (config w) (transformer_ w) (tsdf_map_ w) i (mesh_layer_ w)
    (insertPointcloud_last_msg_time w)
    (insertFreespacePointcloud_last_msg_time w) (filesystem w) (trace w).

Definition set_mesh_layer (m : MeshLayer Mesh) (w : World) : World :=
  mkWorld (config w) (transformer_ w) (tsdf_map_ w) (tsdf_integrator_ w) m
    (insertPointcloud_last_msg_time w)
    (insertFreespacePointcloud_last_msg_time w) (filesystem w) (trace w).

Definition set_insertPointcloud_last_msg_time (t : Time) (w : World)
    : World :=
  mkWorld (config w) (transformer_ w) (tsdf_map_ w) (tsdf_integrator_ w)
    (mesh_layer_ w) t
    (insertFreespacePointcloud_last_msg_time w) (filesystem w) (trace w).

Definition set_insertFreespacePointcloud_last_msg_time (t : Time)
    (w : World) : World :=
  mkWorld (config w) (transformer_ w) (tsdf_map_ w) (tsdf_integrator_ w)
    (mesh_layer_ w) (insertPointcloud_last_msg_time w) t
    (filesystem w) (trace w).

Definition set_filesystem (fs : FileSystem) (w : World) : World :=
  mkWorld (config w) (transformer_ w) (tsdf_map_ w) (tsdf_integrator_ w)
    (mesh_layer_ w) (insertPointcloud_last_msg_time w)
    (insertFreespacePointcloud_last_msg_time w) fs (trace w).

Definition set_trace (t : list Event) (w : World) : World :=
  mkWorld (config w) (transformer_ w) (tsdf_map_ w) (tsdf_integrator_ w)
    (mesh_layer_ w) (insertPointcloud_last_msg_time w)
    (insertFreespacePointcloud_last_msg_time w) (filesystem w) t.

(** ** A state monad over [World] *)

Definition M (A : Type) : Type := World -> A * World.

#[local] Instance M_ret : MRet M := fun A (v : A) (w : World) => (v, w).

#[local] Instance M_bind : MBind M :=
  fun A B (f : A -> M B) (m : M A) (w : World) =>
    let '(v, w') := m w in f v w'.

Definition get : M World := fun w => (w, w).

Definition modify (f : World -> World) : M unit := fun w => (tt, f w).

Definition emit (e : Event) : M unit :=
  modify (fun w => set_trace (trace w ++ [e]) w).

Definition when (c : bool) (m : M unit) : M unit :=
  if c then m else mret tt.

Definition exec {A} (m : M A) (w : World) : World := (m w).2.

Definition eval {A} (m : M A) (w : World) : A := (m w).1.

(** ** The server's functions *)

(** [voxblox_msgs::FilePath::Request]. *)
Record FilePathRequest := mkFilePathRequest {
  file_path : string
}.

(** [TsdfServer::integratePointcloud], lines 287-293. *)
Definition integratePointcloud (T_G_C : Transformation)
    (ptcloud_C : Pointcloud) (colors : Colors)
    (is_freespace_pointcloud : bool) : M unit :=
  w ← get;
  let res := integratePointCloud (tsdf_integrator_ w) T_G_C ptcloud_C colors
               is_freespace_pointcloud (tsdf_map_ w) in
  emit (Ev_integratePointCloud T_G_C ptcloud_C colors
          is_freespace_pointcloud);;
  modify (set_tsdf_integrator res.1);;
  modify (set_tsdf_map res.2).

(** [TsdfServer::newPoseCallback], the hook for inheriting classes. *)
Definition newPoseCallback (T_G_C : Transformation) : M unit :=
  emit (Ev_newPoseCallback T_G_C).

(** [TsdfServer::processPointCloudMessageAndInsert], lines 185-244. *)
Definition processPointCloudMessageAndInsert (pointcloud_msg : PointCloud2)
    (is_freespace_pointcloud : bool) : M unit :=
  w ← get;
  let res := lookupTransform (transformer_ w)
               (frame_id (header pointcloud_msg)) (world_frame_ (config w))
               (stamp (header pointcloud_msg)) in
  modify (set_transformer res.2);;
  emit (Ev_lookupTransform (frame_id (header pointcloud_msg))
          (world_frame_ (config w)) (stamp (header pointcloud_msg))
          (match res.1 with Some _ => true | None => false end));;
  match res.1 with
  | Some T_G_C =>
      let pointcloud_pcl := fromROSMsg (fix_rgb_fields pointcloud_msg) in
      emit (Ev_timer_start "ptcloud_preprocess");;
      let sane := collect_finite_points pointcloud_pcl [] [] in
      emit (Ev_timer_stop "ptcloud_preprocess");;
      when (verbose_ (config w))
        (emit (Ev_info (Log_integrating (length sane.1))));;
      integratePointcloud T_G_C sane.1 sane.2 is_freespace_pointcloud;;
      w' ← get;
      when (verbose_ (config w))
        (emit (Ev_info (Log_finished_integrating (size (tsdf_map_ w')))));;
      newPoseCallback T_G_C
  | None => mret tt
  end.

(** Lines 295-333: the diagnostic publications. *)
Definition publishAllUpdatedTsdfVoxels : M unit :=
  w ← get;
  emit (Ev_publish "tsdf_pointcloud" (world_frame_ (config w))
          (Pub_tsdf_pointcloud (tsdf_map_ w))).

Definition publishTsdfSurfacePoints : M unit :=
  w ← get;
  emit (Ev_publish "surface_pointcloud" (world_frame_ (config w))
          (Pub_surface_pointcloud (tsdf_map_ w))).

Definition publishTsdfOccupiedNodes : M unit :=
  w ← get;
  emit (Ev_publish "occupied_nodes" (world_frame_ (config w))
          (Pub_occupied_nodes (tsdf_map_ w))).

Definition publishSlices : M unit :=
  w ← get;
  emit (Ev_publish "tsdf_slice" (world_frame_ (config w))
          (Pub_tsdf_slice (tsdf_map_ w) 2 (slice_level_ (config w)))).

(** How a callback ends: it returns, or an exception of roscpp's time
    arithmetic leaves it. *)
Inductive Completion := Returned | Threw.

(** [TsdfServer::insertPointcloud], lines 246-272. *)
Definition insertPointcloud (pointcloud_msg : PointCloud2) : M Completion :=
  w ← get;
  match too_soon (stamp (header pointcloud_msg))
          (insertPointcloud_last_msg_time w)
          (min_time_between_msgs_ (config w)) with
  | None => mret Threw
  | Some true => mret Returned
  | Some false =>
      modify (set_insertPointcloud_last_msg_time
                (stamp (header pointcloud_msg)));;
      let is_freespace_pointcloud := false in
      processPointCloudMessageAndInsert pointcloud_msg
        is_freespace_pointcloud;;
      when (publish_tsdf_info_ (config w))
        (publishAllUpdatedTsdfVoxels;;
         publishTsdfSurfacePoints;;
         publishTsdfOccupiedNodes);;
      when (publish_slices_ (config w)) publishSlices;;
      when (verbose_ (config w))
        (emit (Ev_info Log_timings);;
         emit (Ev_info Log_layer_memory));;
      mret Returned
  end.

(** [TsdfServer::insertFreespacePointcloud], lines 274-285. *)
Definition insertFreespacePointcloud (pointcloud_msg : PointCloud2)
    : M Completion :=
  w ← get;
  match too_soon (stamp (header pointcloud_msg))
          (insertFreespacePointcloud_last_msg_time w)
          (min_time_between_msgs_ (config w)) with
  | None => mret Threw
  | Some true => mret Returned
  | Some false =>
      modify (set_insertFreespacePointcloud_last_msg_time
                (stamp (header pointcloud_msg)));;
      let is_freespace_pointcloud := true in
      processPointCloudMessageAndInsert pointcloud_msg
        is_freespace_pointcloud;;
      mret Returned
  end.

(** The call [mesh_integrator_->generateMesh (...)]. *)
Definition mesh_integrator_generateMesh
    (only_mesh_updated_blocks clear_updated_flag : bool) : M unit :=
  w ← get;
  let res := MeshIntegrator_generateMesh only_mesh_updated_blocks
               clear_updated_flag (tsdf_map_ w) (mesh_layer_ w) in
  emit (Ev_generateMesh only_mesh_updated_blocks clear_updated_flag);;
  modify (set_tsdf_map res.1);;
  modify (set_mesh_layer res.2).

(** Lines 347-350 and 371-374: [generateVoxbloxMeshMsg] and
    [mesh_pub_.publish]. *)
Definition publish_mesh : M unit :=
  w ← get;
  emit (Ev_publish "mesh" (world_frame_ (config w))
          (Pub_mesh (mesh_layer_ w) (color_mode_ (config w)))).

(** [TsdfServer::updateMesh], lines 335-352. *)
Definition updateMesh : M unit :=
  w ← get;
  when (verbose_ (config w)) (emit (Ev_info Log_updating_mesh));;
  emit (Ev_timer_start "mesh/update");;
  let only_mesh_updated_blocks := true in
  let clear_updated_flag := true in
  mesh_integrator_generateMesh only_mesh_updated_blocks clear_updated_flag;;
  emit (Ev_timer_stop "mesh/update");;
  emit (Ev_timer_start "mesh/publish");;
  publish_mesh;;
  emit (Ev_timer_stop "mesh/publish").

(** The block of lines 377-386, entered when [mesh_filename_] is not
    empty. *)
Definition output_mesh : M unit :=
  w ← get;
  emit (Ev_timer_start "mesh/output");;
  let res := outputMeshLayerAsPly (mesh_filename_ (config w)) (mesh_layer_ w)
               (filesystem w) in
  let success := res.1 in
  modify (set_filesystem res.2);;
  emit (Ev_outputMeshLayerAsPly (mesh_filename_ (config w)) success);;
  emit (Ev_timer_stop "mesh/output");;
  if success
  then emit (Ev_info (Log_output_ply (mesh_filename_ (config w))))
  else emit (Ev_info (Log_failed_output_ply (mesh_filename_ (config w)))).

(** [TsdfServer::generateMesh], lines 354-390. *)
Definition generateMesh : M bool :=
  w ← get;
  emit (Ev_timer_start "mesh/generate");;
  let clear_mesh := true in
  (if clear_mesh
   then
     let only_mesh_updated_blocks := false in
     let clear_updated_flag := true in
     mesh_integrator_generateMesh only_mesh_updated_blocks clear_updated_flag
   else
     let only_mesh_updated_blocks := true in
     let clear_updated_flag := true in
     mesh_integrator_generateMesh only_mesh_updated_blocks
       clear_updated_flag);;
  emit (Ev_timer_stop "mesh/generate");;
  emit (Ev_timer_start "mesh/publish");;
  publish_mesh;;
  emit (Ev_timer_stop "mesh/publish");;
  when (negb (String.eqb (mesh_filename_ (config w)) "")) output_mesh;;
  emit (Ev_info Log_mesh_timings);;
  mret true.

(** [TsdfServer::generateMeshCallback], lines 392-396. *)
Definition generateMeshCallback : M bool := generateMesh.

(** [TsdfServer::saveMapCallback], lines 398-403. *)
Definition saveMapCallback (request : FilePathRequest) : M bool :=
  w ← get;
  let res := SaveLayer (tsdf_map_ w) (file_path request) (filesystem w) in
  modify (set_filesystem res.2);;
  emit (Ev_SaveLayer (file_path request) res.1);;
  mret res.1.

(** [TsdfServer::loadMapCallback], lines 405-412. *)
Definition loadMapCallback (request : FilePathRequest) : M bool :=
  w ← get;
  let res := LoadBlocksFromFile (file_path request) kReplace (tsdf_map_ w)
               (filesystem w) in
  modify (set_tsdf_map res.2);;
  emit (Ev_LoadBlocksFromFile (file_path request) kReplace res.1);;
  mret res.1.

(** [TsdfServer::updateMeshEvent], line 414. *)
Definition updateMeshEvent : M unit := updateMesh.

(** Modelled from the spec: [Layer::removeAllBlocks] and [MeshLayer::clear]
    are defined in headers that are not among the sources; on the finite
    maps above they leave no block and no mesh. *)
Definition removeAllBlocks (l : Layer Voxels) : Layer Voxels := ∅.

Definition MeshLayer_clear (m : MeshLayer Mesh) : MeshLayer Mesh := ∅.

(** [TsdfServer::clear], lines 416-419. *)
Definition clear : M unit :=
  modify (fun w => set_tsdf_map (removeAllBlocks (tsdf_map_ w)) w);;
  modify (fun w => set_mesh_layer (MeshLayer_clear (mesh_layer_ w)) w).

(** ** The server as a reactive system *)

(** The two pointcloud subscriptions of the constructor (lines 46-57). *)
Inductive Stream := Primary | Freespace.

Definition deliver (s : Stream) (pointcloud_msg : PointCloud2)
    : M Completion :=
  match s with
  | Primary => insertPointcloud pointcloud_msg
  | Freespace => insertFreespacePointcloud pointcloud_msg
  end.

(** The [last_msg_time] that belongs to a subscription's callback. *)
Definition watermark (s : Stream) (w : World) : Time :=
  match s with
  | Primary => insertPointcloud_last_msg_time w
  | Freespace => insertFreespacePointcloud_last_msg_time w
  end.

Definition set_watermark (s : Stream) (t : Time) (w : World) : World :=
  match s with
  | Primary => set_insertPointcloud_last_msg_time t w
  | Freespace => set_insertFreespacePointcloud_last_msg_time t w
  end.

(** What can reach the server once it is constructed: a message on one of
    the subscriptions, the mesh timer, a service call, or a call of the
    public [clear].  The constructor subscribes to the freespace topic only
    when [use_freespace_pointcloud_] is set; without the subscription a
    message on that topic reaches no callback.  An exception that leaves a
    pointcloud callback is thrown before the callback has changed anything;
    a run goes on behind it as if the caller had caught it. *)
Inductive Request :=
  | Req_pointcloud (s : Stream) (pointcloud_msg : PointCloud2)
  | Req_update_mesh_timer
  | Req_generate_mesh
  | Req_save_map (request : FilePathRequest)
  | Req_load_map (request : FilePathRequest)
  | Req_clear.

Definition subscribed (s : Stream) (w : World) : bool :=
  match s with
  | Primary => true
  | Freespace => use_freespace_pointcloud_ (config w)
  end.

Definition handle (req : Request) (w : World) : World :=
  match req with
  | Req_pointcloud s pointcloud_msg =>
      if subscribed s w then exec (deliver s pointcloud_msg) w else w
  | Req_update_mesh_timer => exec updateMeshEvent w
  | Req_generate_mesh => exec generateMeshCallback w
  | Req_save_map request => exec (saveMapCallback request) w
  | Req_load_map request => exec (loadMapCallback request) w
  | Req_clear => exec clear w
  end.

Definition run (reqs : list Request) (w : World) : World :=
  fold_left (fun w req => handle req w) reqs w.

(** The server right after construction: an empty map, an empty mesh, the
    two statics at the default [ros::Time]. *)
Definition TsdfServer_new (cfg : Config) (tf : Transformer)
    (integrator : TsdfIntegrator) (fs : FileSystem) : World :=
  mkWorld cfg tf ∅ integrator ∅ Time_zero Time_zero fs [].

(** ** Reading a trace *)

(** What a call added to the trace: the events of [w'] behind those of
    [w]. *)
Definition emitted (w w' : World) : list Event :=
  drop (length (trace w)) (trace w').

(** The calls of the integrator in a trace, each with its points, its
    colours and its role flag; the publications, each with its topic and its
    frame; the transforms handed to the hook for the new pose. *)
Definition integrations_of (events : list Event)
    : list (Pointcloud * Colors * bool) :=
  omap (fun e => match e with
                 | Ev_integratePointCloud _ points_C colors flag =>
                     Some (points_C, colors, flag)
                 | _ => None
                 end) events.

Definition publications_of (events : list Event) : list (string * string) :=
  omap (fun e => match e with
                 | Ev_publish topic frame _ => Some (topic, frame)
                 | _ => None
                 end) events.

Definition lookups_of (events : list Event) : list (string * string * Time) :=
  omap (fun e => match e with
                 | Ev_lookupTransform from_frame to_frame timestamp _ =>
                     Some (from_frame, to_frame, timestamp)
                 | _ => None
                 end) events.

(** A point all of whose coordinates are finite. *)
Definition finite_point (p : Point) : bool :=
  Float32.isfinite (px p) && Float32.isfinite (py p)
  && Float32.isfinite (pz p).

(** The topics that the constructor advertises (lines 30-41). *)
Definition advertised_topics : list string :=
  ["mesh"; "surface_pointcloud"; "tsdf_pointcloud"; "occupied_nodes";
   "tsdf_slice"].

(** An integrator call with finite points only and as many colours as
    points; a publication on an advertised topic with the given frame. *)
Definition well_formed_integration (call : Pointcloud * Colors * bool)
    : bool :=
  forallb finite_point call.1.1
  && (length call.1.1 =? length call.1.2)%nat.

Definition expected_publication (frame : string) (pub : string * string)
    : bool :=
  existsb (String.eqb pub.1) advertised_topics && String.eqb pub.2 frame.

Definition is_pointcloud_request (req : Request) : bool :=
  match req with
  | Req_pointcloud _ _ => true
  | _ => false
  end.

(** A request whose stamp, if it has one, is before 2^31 seconds, and a
    server whose two [last_msg_time] are. *)
Definition early_request (req : Request) : bool :=
  match req with
  | Req_pointcloud _ pointcloud_msg =>
      Time_early (stamp (header pointcloud_msg))
  | _ => true
  end.

Definition early_world (w : World) : bool :=
  Time_early (insertPointcloud_last_msg_time w)
  && Time_early (insertFreespacePointcloud_last_msg_time w).

(** The diagnostic publications and log lines that close [insertPointcloud]
    (lines 258-271), for a given configuration and map. *)
Definition diagnostics (cfg : Config) (layer : Layer Voxels) : list Event :=
  (if publish_tsdf_info_ cfg
   then [Ev_publish "tsdf_pointcloud" (world_frame_ cfg)
           (Pub_tsdf_pointcloud layer);
         Ev_publish "surface_pointcloud" (world_frame_ cfg)
           (Pub_surface_pointcloud layer);
         Ev_publish "occupied_nodes" (world_frame_ cfg)
           (Pub_occupied_nodes layer)]
   else [])
  ++ (if publish_slices_ cfg
      then [Ev_publish "tsdf_slice" (world_frame_ cfg)
              (Pub_tsdf_slice layer 2 (slice_level_ cfg))]
      else [])
  ++ (if verbose_ cfg
      then [Ev_info Log_timings; Ev_info Log_layer_memory]
      else []).

End Server.

(** ** Choices that the constructor makes from its parameters *)

(** Lines 140-154: the colour mode for the value of the "color_mode"
    parameter. *)
Definition select_color_mode (color_mode : string) : ColorMode :=
  if String.eqb color_mode "color" || String.eqb color_mode "colors"
  then kColor
  else if String.eqb color_mode "height" then kHeight
  else if String.eqb color_mode "normals" then kNormals
  else if String.eqb color_mode "lambert" then kLambert
  else if String.eqb color_mode "lambert_color" then kLambertColor
  else kGray.

(** The integrator classes that the constructor can instantiate, and the
    integrator configuration: the one member that the constructor sets by
    itself, and all the others. *)
Inductive IntegratorClass :=
  SimpleTsdfIntegrator | MergedTsdfIntegrator | FastTsdfIntegrator.

Record IntegratorConfig (Settings : Type) := mkIntegratorConfig {
  enable_anti_grazing : bool;
  other_settings : Settings
}.
Arguments mkIntegratorConfig {Settings} _ _.
Arguments enable_anti_grazing {Settings} _.
Arguments other_settings {Settings} _.

(** [std::string::compare (...) == 0]. *)
Definition compare_is_zero (s1 s2 : string) : bool :=
  match String.compare s1 s2 with
  | Eq => true
  | _ => false
  end.

(** Lines 117-136: the integrator for the value of the "method"
    parameter, and the configuration it is constructed with. *)
Definition select_integrator {Settings : Type} (method : string)
    (integrator_config : IntegratorConfig Settings)
    : IntegratorClass * IntegratorConfig Settings :=
  if compare_is_zero method "simple"
  then (SimpleTsdfIntegrator, integrator_config)
  else if compare_is_zero method "merged"
  then (MergedTsdfIntegrator,
        mkIntegratorConfig false (other_settings integrator_config))
  else if compare_is_zero method "merged_discard"
  then (MergedTsdfIntegrator,
        mkIntegratorConfig true (other_settings integrator_config))
  else if compare_is_zero method "fast"
  then (FastTsdfIntegrator, integrator_config)
  else (SimpleTsdfIntegrator, integrator_config).

Arguments Float32.isfinite : simpl never.

(** ** The mesh integrator of the specification *)

(** Modelled from the spec: [MeshIntegrator<TsdfVoxel>::generateMesh] is
    defined in a header that is not among the sources.  The specification
    gives its contract: a pass includes every allocated block when
    [onlyDirtyBlocks] is false and the blocks currently marked dirty when it
    is true; it produces or updates the mesh of every included block from
    the voxel data of the map, and with [clearDirtyFlag] it clears the dirty
    flag of exactly the included blocks.  The meshing of one block from the
    voxel data, marching cubes in the library, is the parameter [extract]. *)
Definition pass_includes {V : Type} (only_mesh_updated_blocks : bool)
    (blk : Block V) : bool :=
  negb only_mesh_updated_blocks || updated blk.

Definition spec_generateMesh {V Msh : Type}
    (extract : gmap BlockIndex V -> BlockIndex -> Msh)
    (only_mesh_updated_blocks clear_updated_flag : bool)
    (layer : Layer V) (mesh : MeshLayer Msh) : Layer V * MeshLayer Msh :=
  let voxel_data := voxels <$> layer in
  let regenerated :=
    map_imap (fun idx blk =>
                if pass_includes only_mesh_updated_blocks blk
                then Some (extract voxel_data idx) else None) layer in
  let layer' :=
    if clear_updated_flag
    then (fun blk => if pass_includes only_mesh_updated_blocks blk
                     then mkBlock (voxels blk) false else blk) <$> layer
    else layer in
  (layer', regenerated ∪ mesh).

(** ** A concrete set of collaborators

    Small stand-ins on which the server can be run: a transformer that
    knows the frame "camera" only, a message format of three words per
    point, an integrator that counts the points it was given into the block
    at the origin, the mesh integrator of the specification, and a file
    system in which nothing below "/ro/" can be written. *)
Module Demo.

Fixpoint points_of_words (words : list Z) : list PointXYZRGB :=
  match words with
  | wx :: wy :: wz :: rest =>
      mkPointXYZRGB wx wy wz 0 0 0 255 :: points_of_words rest
  | _ => []
  end.

Definition writable (path : string) : bool :=
  negb (String.prefix "/ro/" path).

Definition origin : BlockIndex := (0, 0, 0).

Definition extract (voxel_data : gmap BlockIndex Z) (idx : BlockIndex) : Z :=
  default 0 (voxel_data !! idx).

#[global] Instance carriers : Carriers := {|
  Transformation := Z;
  Transformer := unit;
  TsdfIntegrator := nat;
  Voxels := Z;
  Mesh := Z;
  FileSystem := gmap string (gmap BlockIndex Z)
|}.

(** The roscpp of the time of the source, and the later one. *)
#[global] Instance roscpp : Roscpp := {|
  time_subtraction := minus_by_casts
|}.


#[global] Instance collaborators : Collaborators := {|
  lookupTransform := fun _ from_frame _ timestamp =>
    (if String.eqb from_frame "camera" then Some (nanoseconds timestamp)
     else None, tt);
  fromROSMsg := fun msg => points_of_words (data msg);
  integratePointCloud := fun calls _ points_C _ _ layer =>
    (S calls,
     <[origin := mkBlock (Z.of_nat (length points_C)) true]> layer);
  MeshIntegrator_generateMesh := spec_generateMesh extract;
  outputMeshLayerAsPly := fun filename mesh fs =>
    if writable filename then (true, <[filename := mesh]> fs)
    else (false, fs);
  SaveLayer := fun layer path fs =>
    if writable path then (true, <[path := voxels <$> layer]> fs)
    else (false, fs);
  LoadBlocksFromFile := fun path strategy layer fs =>
    match fs !! path with
    | Some stored =>
        let loaded := (fun v => mkBlock v false) <$> stored in
        (true,
         match strategy with
         | kReplace => loaded ∪ layer
         | kMerge =>
             union_with (fun old new =>
                           Some (mkBlock (voxels old + voxels new) false))
               layer loaded
         end)
    | None => (false, layer)
    end
|}.

(** Stamps and intervals are given in nanoseconds. *)
Definition stamp_of (ns : Z) : Time :=
  mkTime (ns / 1000000000) (ns mod 1000000000).

Definition interval_of (ns : Z) : Duration :=
  mkDuration (ns / 1000000000) (ns mod 1000000000).

Definition cfg (min_interval : Z) (filename : string) : Config :=
  mkConfig true "world" 0 true false false (interval_of min_interval)
    filename kColor.

Definition fresh (min_interval : Z) (filename : string) : World :=
  TsdfServer_new (cfg min_interval filename) tt O ∅.

Definition frame (from_frame : string) (t : Z) (words : list Z)
    : PointCloud2 :=
  mkPointCloud2 (mkHeader from_frame (stamp_of t)) [mkPointField "rgb" 6]
    words.

(** Two samples, the second with an infinite coordinate, seen from a frame
    that the transformer knows and from one that it does not know. *)
Definition camera_frame (t : Z) : PointCloud2 :=
  frame "camera" t
    [Float32.one; Float32.two; Float32.one;
     Float32.one; Float32.pos_inf; Float32.two].

Definition lidar_frame (t : Z) : PointCloud2 :=
  frame "lidar" t
    [Float32.one; Float32.two; Float32.one;
     Float32.one; Float32.pos_inf; Float32.two].

(** A server that wants 100 ns between messages and exports no mesh, and
    one that takes every message and exports to a place it cannot write. *)
Definition throttled : World := fresh 100 "".

Definition exporting : World := fresh 0 "/ro/mesh.ply".

End Demo.


(** * Properties *)

(** ** The point filter *)

(** A value is finite exactly when it is neither an infinity nor a NaN. *)
Lemma isfinite_not_inf_nor_nan (f : Float32.float) :
  Float32.isfinite f = negb (Float32.isinf f || Float32.isnan f).
Proof.
  unfold Float32.isfinite, Float32.isinf, Float32.isnan.
  by destruct (Float32.exponent f =? 255), (Float32.fraction f =? 0).
Qed.

Lemma collect_finite_points_acc (points : list PointXYZRGB) :
  forall (acc_p : Pointcloud) (acc_c : Colors),
    collect_finite_points points acc_p acc_c =
    (acc_p ++ List.map point_of (List.filter all_finite points),
     acc_c ++ List.map color_of (List.filter all_finite points)).
Proof.
  induction points as [|p rest IH]; intros acc_p acc_c;
    cbn [collect_finite_points List.filter List.map].
  - by rewrite !app_nil_r.
  - assert (Hcond : negb (Float32.isfinite (x p))
                    || negb (Float32.isfinite (y p))
                    || negb (Float32.isfinite (z p))
                    = negb (all_finite p)).
    { unfold all_finite, has_nonfinite_coordinate.
      by destruct (Float32.isfinite (x p)), (Float32.isfinite (y p)),
           (Float32.isfinite (z p)). }
    rewrite Hcond. destruct (all_finite p); cbn [negb List.map]; rewrite IH.
    + by rewrite <- !app_assoc.
    + done.
Qed.

Lemma map_lookup_Some {A B : Type} (f : A -> B) (l : list A) (i : nat)
    (v : B) :
  List.map f l !! i = Some v -> exists u, l !! i = Some u /\ v = f u.
Proof.
  revert i. induction l as [|u l IH]; intros [|i] Hv; cbn in *; try done.
  - exists u. by simplify_eq.
  - by apply IH.
Qed.

(** C3.  The filter of processPointCloudMessageAndInsert drops exactly the
    samples that have a coordinate which is not finite, each together with
    its colour: the points and the colours it hands on are those of the
    samples all of whose coordinates are finite, in the order of the input
    and position by position from the same sample; the two arrays have the
    same length, which is at most the length of the input.  Nothing else is
    removed and nothing is merged. *)
Theorem sanitize_keeps_exactly_the_finite_samples
    (points : list PointXYZRGB) :
  let kept :=
    List.filter (fun p => negb (has_nonfinite_coordinate p)) points in
  let out := collect_finite_points points [] [] in
  out.1 = List.map point_of kept /\
  out.2 = List.map color_of kept /\
  length out.1 = length out.2 /\
  (length out.1 <= length points)%nat /\
  (forall i p c,
      out.1 !! i = Some p -> out.2 !! i = Some c ->
      exists s, kept !! i = Some s /\ p = point_of s /\ c = color_of s) /\
  (forall s, s ∈ kept <-> s ∈ points /\ has_nonfinite_coordinate s = false).
Proof.
  cbv zeta. rewrite collect_finite_points_acc. cbn [fst snd app].
  fold all_finite.
  split; [done|]. split; [done|]. split; [by rewrite !length_map|].
  split; [rewrite length_map; apply List.filter_length_le|]. split.
  - intros i p c Hp Hc.
    apply map_lookup_Some in Hp as (s & Hs & ->).
    apply map_lookup_Some in Hc as (s' & Hs' & ->).
    exists s. by simplify_eq.
  - intros s. rewrite !list_elem_of_In, List.filter_In. unfold all_finite.
    by destruct (has_nonfinite_coordinate s); intuition.
Qed.

(** The filter at work: the sample with an infinite coordinate and the one
    with a NaN go, with their colours; the equal samples around them both
    stay. *)
Example collect_finite_points_example :
  collect_finite_points
    [mkPointXYZRGB Float32.one Float32.two Float32.one 10 20 30 255;
     mkPointXYZRGB Float32.one Float32.neg_inf Float32.one 11 21 31 255;
     mkPointXYZRGB Float32.quiet_nan Float32.two Float32.one 12 22 32 255;
     mkPointXYZRGB Float32.one Float32.two Float32.one 10 20 30 255] [] []
  = ([mkPoint Float32.one Float32.two Float32.one;
      mkPoint Float32.one Float32.two Float32.one],
     [mkColor 10 20 30 255; mkColor 10 20 30 255]).
Proof. reflexivity. Qed.

(** ** Time arithmetic within the range of a duration *)

Ltac bool_facts :=
  repeat match goal with
         | H : _ && _ = true |- _ => apply andb_prop in H as [? ?]
         | H : (_ <=? _) = true |- _ => apply Z.leb_le in H
         | H : (_ <? _) = true |- _ => apply Z.ltb_lt in H
         | H : (_ <? _) = false |- _ => apply Z.ltb_ge in H
         | H : (_ =? _) = true |- _ => apply Z.eqb_eq in H
         | H : (_ =? _) = false |- _ => apply Z.eqb_neq in H
         end.

Lemma to_int32_exact (n : Z) :
  -2147483648 <= n < 2147483648 -> to_int32 n = n.
Proof. unfold to_int32. intros Hn. rewrite Z.mod_small; lia. Qed.

Lemma to_int32_shift (n k : Z) : to_int32 (n + k * 4294967296) = to_int32 n.
Proof.
  unfold to_int32. f_equal.
  replace (n + k * 4294967296 + 2147483648)
    with (n + 2147483648 + k * 4294967296) by lia.
  apply Z.mod_add. lia.
Qed.

Lemma to_int32_diff (a b : Z) :
  0 <= a < 4294967296 -> 0 <= b < 4294967296 ->
  -2147483648 <= a - b < 2147483648 ->
  to_int32 (to_int32 a - to_int32 b) = a - b.
Proof.
  intros Ha Hb Hd.
  assert (Hsa : exists k, to_int32 a = a + k * 4294967296).
  { unfold to_int32.
    exists (- ((a + 2147483648) / 4294967296)).
    pose proof (Z.div_mod (a + 2147483648) 4294967296). lia. }
  assert (Hsb : exists k, to_int32 b = b + k * 4294967296).
  { unfold to_int32.
    exists (- ((b + 2147483648) / 4294967296)).
    pose proof (Z.div_mod (b + 2147483648) 4294967296). lia. }
  destruct Hsa as [ka ->], Hsb as [kb ->].
  replace (a + ka * 4294967296 - (b + kb * 4294967296))
    with (a - b + (ka - kb) * 4294967296) by lia.
  rewrite to_int32_shift. by apply to_int32_exact.
Qed.

Lemma normalize_small (s n : Z) :
  -1000000000 < n < 1000000000 ->
  -2147483648 <= (if n <? 0 then s - 1 else s) < 2147483648 ->
  normalizeSecNSecSigned s n
  = Some (mkDuration (if n <? 0 then s - 1 else s)
            (if n <? 0 then n + 1000000000 else n)).
Proof.
  intros Hn Hs. unfold normalizeSecNSecSigned.
  assert (Hrem : Z.rem n 1000000000 = n).
  { destruct (Z.lt_ge_cases n 0).
    - rewrite <- (Z.opp_involutive n) at 1. rewrite Z.rem_opp_l by lia.
      rewrite Z.rem_small by lia. lia.
    - apply Z.rem_small. lia. }
  assert (Hquot : Z.quot n 1000000000 = 0).
  { pose proof (Z.quot_rem' n 1000000000). lia. }
  rewrite Hrem, Hquot, Z.add_0_r.
  destruct (n <? 0);
    (destruct (Z.ltb_spec (if true then s - 1 else s) (-2147483648));
     destruct (Z.ltb_spec 2147483647 (if true then s - 1 else s));
     destruct (Z.ltb_spec s (-2147483648));
     destruct (Z.ltb_spec 2147483647 s);
     destruct (Z.ltb_spec (s - 1) (-2147483648));
     destruct (Z.ltb_spec 2147483647 (s - 1)); cbn; try done; try lia).
Qed.

Lemma to_int64_of_uint64 (n : Z) :
  -9223372036854775808 <= n < 9223372036854775808 ->
  to_int64 (to_uint64 n) = n.
Proof.
  unfold to_int64, to_uint64. intros Hn.
  Z.to_euclidean_division_equations. lia.
Qed.

Lemma Time_normalized_facts (t : Time) :
  Time_normalized t = true ->
  0 <= sec t < 4294967296 /\ 0 <= nsec t < 1000000000.
Proof. unfold Time_normalized. intros H. bool_facts. lia. Qed.

Lemma Time_minus_by_casts_exact (a b : Time) :
  Time_normalized a = true -> Time_normalized b = true ->
  -2147483648 < sec a - sec b < 2147483648 ->
  Time_minus_by_casts a b
  = Some (mkDuration ((nanoseconds a - nanoseconds b) / 1000000000)
            ((nanoseconds a - nanoseconds b) mod 1000000000)).
Proof.
  intros Ha Hb Hclose.
  apply Time_normalized_facts in Ha as [Hsa Hna], Hb as [Hsb Hnb].
  unfold Time_minus_by_casts, nanoseconds.
  rewrite to_int32_diff by lia.
  rewrite (to_int32_exact (nsec a)), (to_int32_exact (nsec b)) by lia.
  rewrite to_int32_exact by lia.
  rewrite normalize_small by (destruct (Z.ltb_spec (nsec a - nsec b) 0); lia).
  do 2 f_equal.
  - destruct (Z.ltb_spec (nsec a - nsec b) 0);
      Z.to_euclidean_division_equations; lia.
  - destruct (Z.ltb_spec (nsec a - nsec b) 0);
      Z.to_euclidean_division_equations; lia.
Qed.

Lemma Time_minus_by_fromNSec_exact (a b : Time) :
  Time_normalized a = true -> Time_normalized b = true ->
  -2147483648 < sec a - sec b < 2147483648 ->
  Time_minus_by_fromNSec a b
  = Some (mkDuration ((nanoseconds a - nanoseconds b) / 1000000000)
            ((nanoseconds a - nanoseconds b) mod 1000000000)).
Proof.
  intros Ha Hb Hclose.
  apply Time_normalized_facts in Ha as [Hsa Hna], Hb as [Hsb Hnb].
  unfold Time_minus_by_fromNSec, toNSec.
  fold (nanoseconds a) (nanoseconds b).
  assert (Hua : to_uint64 (nanoseconds a) = nanoseconds a).
  { unfold to_uint64, nanoseconds. apply Z.mod_small. lia. }
  assert (Hub : to_uint64 (nanoseconds b) = nanoseconds b).
  { unfold to_uint64, nanoseconds. apply Z.mod_small. lia. }
  rewrite Hua, Hub.
  rewrite to_int64_of_uint64 by (unfold nanoseconds; lia).
  set (D := nanoseconds a - nanoseconds b).
  assert (HD : -2147483648 * 1000000000 < D < 2147483648 * 1000000000)
    by (unfold D, nanoseconds; lia).
  unfold Duration_fromNSec.
  assert (Hq : -2147483648 <= Z.quot D 1000000000 <= 2147483647)
    by (Z.to_euclidean_division_equations; lia).
  assert (Hr : -1000000000 < Z.rem D 1000000000 < 1000000000)
    by (Z.to_euclidean_division_equations; lia).
  destruct (Z.ltb_spec (Z.quot D 1000000000) (-2147483648)); [lia|].
  destruct (Z.ltb_spec 2147483647 (Z.quot D 1000000000)); [lia|]. cbn.
  rewrite !to_int32_exact by lia.
  rewrite normalize_small;
    [|lia|destruct (Z.ltb_spec (Z.rem D 1000000000) 0);
          Z.to_euclidean_division_equations; lia].
  do 2 f_equal;
    destruct (Z.ltb_spec (Z.rem D 1000000000) 0);
    Z.to_euclidean_division_equations; lia.
Qed.

Lemma Duration_lt_normalized (d1 d2 : Duration) :
  0 <= d_nsec d1 < 1000000000 -> 0 <= d_nsec d2 < 1000000000 ->
  Duration_lt d1 d2 = (Duration_nanoseconds d1 <? Duration_nanoseconds d2).
Proof.
  intros H1 H2. unfold Duration_lt, Duration_nanoseconds.
  destruct (Z.ltb_spec (d_sec d1) (d_sec d2)),
    (Z.eqb_spec (d_sec d1) (d_sec d2)),
    (Z.ltb_spec (d_nsec d1) (d_nsec d2)),
    (Z.ltb_spec (d_sec d1 * 1000000000 + d_nsec d1)
       (d_sec d2 * 1000000000 + d_nsec d2)); cbn; try done; lia.
Qed.

Lemma too_soon_exact {roscpp : Roscpp} (stamp last : Time) (min : Duration) :
  Time_normalized stamp = true -> Time_normalized last = true ->
  Duration_normalized min = true ->
  -2147483648 < sec stamp - sec last < 2147483648 ->
  too_soon stamp last min
  = Some (nanoseconds stamp - nanoseconds last <? Duration_nanoseconds min).
Proof.
  intros Hs Hl Hm Hclose. unfold too_soon, Time_minus.
  assert (Hminus :
            match time_subtraction with
            | minus_by_casts => Time_minus_by_casts stamp last
            | minus_by_fromNSec => Time_minus_by_fromNSec stamp last
            end
            = Some (mkDuration
                      ((nanoseconds stamp - nanoseconds last) / 1000000000)
                      ((nanoseconds stamp - nanoseconds last)
                         mod 1000000000))).
  { destruct time_subtraction;
      [by apply Time_minus_by_casts_exact
      |by apply Time_minus_by_fromNSec_exact]. }
  rewrite Hminus. f_equal.
  unfold Duration_normalized in Hm. bool_facts.
  rewrite Duration_lt_normalized; cbn.
  - unfold Duration_nanoseconds at 1. cbn. f_equal.
    Z.to_euclidean_division_equations; lia.
  - Z.to_euclidean_division_equations; lia.
  - lia.
Qed.

Lemma Time_minus_self {roscpp : Roscpp} (t : Time) :
  Time_minus t t = Some (mkDuration 0 0).
Proof.
  unfold Time_minus. destruct time_subtraction.
  - unfold Time_minus_by_casts. by rewrite !Z.sub_diag.
  - unfold Time_minus_by_fromNSec. by rewrite Z.sub_diag.
Qed.

Lemma Time_early_facts (t : Time) :
  Time_early t = true ->
  Time_normalized t = true /\ 0 <= sec t < 2147483648.
Proof.
  unfold Time_early, Time_normalized. intros H. bool_facts.
  split; [|lia].
  repeat (apply andb_true_intro; split);
    first [ by apply Z.leb_le | apply Z.ltb_lt; lia ].
Qed.

Section ServerFacts.

Context {carriers : Carriers} {roscpp : Roscpp} {collab : Collaborators}.

Ltac destruct_world w :=
  destruct w as [[verbose wf sl ufp pti psl mint mfn cm]
                   tf map integ mesh l1 l2 fs tr].

Ltac unfold_server :=
  unfold handle, subscribed, deliver, generateMeshCallback, updateMeshEvent,
    saveMapCallback, loadMapCallback, clear, insertPointcloud,
    insertFreespacePointcloud, processPointCloudMessageAndInsert,
    integratePointcloud, newPoseCallback, publishAllUpdatedTsdfVoxels,
    publishTsdfSurfacePoints, publishTsdfOccupiedNodes, publishSlices,
    updateMesh, generateMesh, output_mesh, publish_mesh,
    mesh_integrator_generateMesh, exec, eval in *;
  cbv [mbind M_bind mret M_ret get modify emit when] in *.

Ltac break_condition :=
  match goal with
  | |- context [too_soon ?t ?last ?interval] =>
      destruct (too_soon t last interval) as [[|]|] eqn:?
  | |- context [if ?c then _ else _] => destruct c eqn:?
  | |- context [match ?c with Some _ => _ | None => _ end] =>
      destruct c eqn:?
  end.

Ltac run_server := unfold_server; cbn; repeat (break_condition; cbn).

(** ** From the filter to the integrator *)

(** With a pose, the integrator is called once, on the points and colours
    of the samples that the filter kept. *)
Lemma processPointCloudMessageAndInsert_integrates_kept
    (pointcloud_msg : PointCloud2) (is_freespace_pointcloud : bool)
    (w : World) (T_G_C : Transformation) :
  (lookupTransform (transformer_ w) (frame_id (header pointcloud_msg))
     (world_frame_ (config w)) (stamp (header pointcloud_msg))).1
  = Some T_G_C ->
  let kept :=
    List.filter all_finite (fromROSMsg (fix_rgb_fields pointcloud_msg)) in
  let w' :=
    exec (processPointCloudMessageAndInsert pointcloud_msg
            is_freespace_pointcloud) w in
  exists before after,
    trace w' =
      trace w ++ before
      ++ Ev_integratePointCloud T_G_C (List.map point_of kept)
           (List.map color_of kept) is_freespace_pointcloud :: after /\
    Forall (fun e => match e with
                     | Ev_integratePointCloud _ _ _ _ => False
                     | _ => True
                     end) (before ++ after).
Proof.
  cbv zeta. intros Hlookup. destruct_world w. cbn in Hlookup.
  unfold_server. cbn. rewrite Hlookup. cbn.
  rewrite collect_finite_points_acc. cbn.
  destruct verbose; cbn; rewrite <- ?app_assoc; cbn.
  - eexists [_; _; _; _], _. split; [done|]. by repeat constructor.
  - eexists [_; _; _], _. split; [done|]. by repeat constructor.
Qed.

(** ** The mesh cycles *)

(** C6.  A cycle started by the mesh timer calls the mesh integrator once,
    with only_mesh_updated_blocks = true and clear_updated_flag = true, and
    then publishes the mesh layer that this call produced.  It calls no
    exporter: no export event is recorded and the files are what they
    were. *)
Theorem incremental_mesh_cycle (w : World) :
  let generated :=
    MeshIntegrator_generateMesh true true (tsdf_map_ w) (mesh_layer_ w) in
  let w' := exec updateMeshEvent w in
  trace w' =
    trace w
    ++ (if verbose_ (config w) then [Ev_info Log_updating_mesh] else [])
    ++ [Ev_timer_start "mesh/update";
        Ev_generateMesh true true;
        Ev_timer_stop "mesh/update";
        Ev_timer_start "mesh/publish";
        Ev_publish "mesh" (world_frame_ (config w))
          (Pub_mesh generated.2 (color_mode_ (config w)));
        Ev_timer_stop "mesh/publish"] /\
  tsdf_map_ w' = generated.1 /\
  mesh_layer_ w' = generated.2 /\
  filesystem w' = filesystem w /\
  config w' = config w /\
  (forall filename success,
      Ev_outputMeshLayerAsPly filename success
        ∉ drop (length (trace w)) (trace w')).
Proof.
  destruct_world w. run_server; rewrite <- ?app_assoc; cbn;
    (repeat split; [done..|]); intros filename success;
    rewrite drop_app_length; intros Hin;
    repeat (apply elem_of_cons in Hin as [Hin|Hin]; [discriminate|]);
    by apply elem_of_nil in Hin.
Qed.

(** C5.  A full cycle calls the mesh integrator once, with
    only_mesh_updated_blocks = false and clear_updated_flag = true, then
    publishes the mesh layer that this call produced, and then, exactly
    when mesh_filename_ is not empty, calls the PLY writer once on that
    file name and that mesh layer.  Whatever the writer answers, the mesh
    layer stays the one that was published and the mesh integrator is not
    called again. *)
Theorem full_mesh_cycle (w : World) :
  let generated :=
    MeshIntegrator_generateMesh false true (tsdf_map_ w) (mesh_layer_ w) in
  let filename := mesh_filename_ (config w) in
  let written := outputMeshLayerAsPly filename generated.2 (filesystem w) in
  let w' := exec generateMesh w in
  trace w' =
    trace w
    ++ [Ev_timer_start "mesh/generate";
        Ev_generateMesh false true;
        Ev_timer_stop "mesh/generate";
        Ev_timer_start "mesh/publish";
        Ev_publish "mesh" (world_frame_ (config w))
          (Pub_mesh generated.2 (color_mode_ (config w)));
        Ev_timer_stop "mesh/publish"]
    ++ (if String.eqb filename "" then []
        else [Ev_timer_start "mesh/output";
              Ev_outputMeshLayerAsPly filename written.1;
              Ev_timer_stop "mesh/output";
              Ev_info (if written.1 then Log_output_ply filename
                       else Log_failed_output_ply filename)])
    ++ [Ev_info Log_mesh_timings] /\
  tsdf_map_ w' = generated.1 /\
  mesh_layer_ w' = generated.2 /\
  filesystem w' =
    (if String.eqb filename "" then filesystem w else written.2).
Proof.
  destruct_world w. run_server; rewrite <- ?app_assoc; cbn; done.
Qed.

(** C2, as the code has it.  The service behind "generate_mesh" answers
    true on every call, whether or not a file name is configured and
    whatever the PLY writer returned; the writer's answer only selects the
    line that is logged. *)
Theorem generateMeshCallback_always_true (w : World) :
  let generated :=
    MeshIntegrator_generateMesh false true (tsdf_map_ w) (mesh_layer_ w) in
  let filename := mesh_filename_ (config w) in
  let written := outputMeshLayerAsPly filename generated.2 (filesystem w) in
  eval generateMeshCallback w = true /\
  (filename = "" \/
   Ev_info (if written.1 then Log_output_ply filename
            else Log_failed_output_ply filename)
     ∈ trace (exec generateMeshCallback w)).
Proof.
  destruct_world w. run_server; rewrite <- ?app_assoc; cbn; split; try done;
    first [ right; rewrite elem_of_app; right; set_solver
          | left; apply String.eqb_eq; by apply negb_false_iff ].
Qed.

(** ** The services on the map *)

(** C7, as the code has it.  A "load_map" request carries a file path and
    nothing else.  The callback calls the block loader once, with that path,
    the fixed strategy kReplace and the server's map, answers what the
    loader answered, and leaves the map exactly as the loader left it; the
    mesh, the files and the two statics are untouched. *)
Theorem loadMapCallback_delegates_with_kReplace
    (request : FilePathRequest) (w : World) :
  let loaded :=
    LoadBlocksFromFile (file_path request) kReplace (tsdf_map_ w)
      (filesystem w) in
  let w' := exec (loadMapCallback request) w in
  eval (loadMapCallback request) w = loaded.1 /\
  trace w' =
    trace w ++ [Ev_LoadBlocksFromFile (file_path request) kReplace loaded.1] /\
  tsdf_map_ w' = loaded.2 /\
  mesh_layer_ w' = mesh_layer_ w /\
  filesystem w' = filesystem w /\
  insertPointcloud_last_msg_time w' = insertPointcloud_last_msg_time w /\
  insertFreespacePointcloud_last_msg_time w'
    = insertFreespacePointcloud_last_msg_time w.
Proof. destruct_world w. by run_server. Qed.

(** C10.  After clear the map has no allocated block and the mesh layer is
    empty; the two statics of the pointcloud callbacks, the configuration,
    the integrator object, the transformer, the files and the trace are
    what they were. *)
Theorem clear_empties_map_and_mesh (w : World) :
  let w' := exec clear w in
  size (tsdf_map_ w') = 0%nat /\
  tsdf_map_ w' = ∅ /\
  mesh_layer_ w' = ∅ /\
  insertPointcloud_last_msg_time w' = insertPointcloud_last_msg_time w /\
  insertFreespacePointcloud_last_msg_time w'
    = insertFreespacePointcloud_last_msg_time w /\
  config w' = config w /\
  tsdf_integrator_ w' = tsdf_integrator_ w /\
  transformer_ w' = transformer_ w /\
  filesystem w' = filesystem w /\
  trace w' = trace w.
Proof. destruct_world w. by run_server. Qed.

(** ** The admission gate *)

Ltac gate_facts :=
  repeat match goal with
         | H : (_ <? _) = true |- _ => apply Z.ltb_lt in H
         | H : (_ <? _) = false |- _ => apply Z.ltb_ge in H
         end.


Lemma deliver_config (s : Stream) (pointcloud_msg : PointCloud2)
    (w : World) :
  config (exec (deliver s pointcloud_msg) w) = config w.
Proof. destruct s; destruct_world w; by run_server. Qed.

Lemma deliver_other_watermark (s s' : Stream) (pointcloud_msg : PointCloud2)
    (w : World) :
  s <> s' ->
  watermark s' (exec (deliver s pointcloud_msg) w) = watermark s' w.
Proof.
  intros Hne. destruct s, s'; try done; destruct_world w; by run_server.
Qed.

(** What the gate decides, in roscpp's own arithmetic: the frame is
    admitted, dropped, or the subtraction throws. *)
Lemma gate_decides (s : Stream) (pointcloud_msg : PointCloud2) (w : World) :
  let gate :=
    too_soon (stamp (header pointcloud_msg)) (watermark s w)
      (min_time_between_msgs_ (config w)) in
  let w' := exec (deliver s pointcloud_msg) w in
  (gate = Some false /\
   watermark s w' = stamp (header pointcloud_msg) /\
   eval (deliver s pointcloud_msg) w = Returned /\
   exists found rest,
     trace w' =
       trace w
       ++ Ev_lookupTransform (frame_id (header pointcloud_msg))
            (world_frame_ (config w)) (stamp (header pointcloud_msg)) found
          :: rest) \/
  (gate = Some true /\ w' = w /\
   eval (deliver s pointcloud_msg) w = Returned) \/
  (gate = None /\ w' = w /\ eval (deliver s pointcloud_msg) w = Threw).
Proof.
  destruct s; destruct_world w; run_server; rewrite <- ?app_assoc; cbn;
    first [ by right; right
          | by right; left
          | left; (do 3 (split; [done|])); by eexists _, _ ].
Qed.

Lemma deliver_dropped (s : Stream) (pointcloud_msg : PointCloud2)
    (w : World) :
  too_soon (stamp (header pointcloud_msg)) (watermark s w)
    (min_time_between_msgs_ (config w)) <> Some false ->
  exec (deliver s pointcloud_msg) w = w.
Proof.
  intros Hgate.
  by destruct (gate_decides s pointcloud_msg w)
    as [(Hg & _)|[(_ & Hw & _)|(_ & Hw & _)]].
Qed.

Lemma deliver_admitted_watermark (s : Stream) (pointcloud_msg : PointCloud2)
    (w : World) :
  too_soon (stamp (header pointcloud_msg)) (watermark s w)
    (min_time_between_msgs_ (config w)) = Some false ->
  watermark s (exec (deliver s pointcloud_msg) w)
  = stamp (header pointcloud_msg).
Proof.
  intros Hgate.
  destruct (gate_decides s pointcloud_msg w)
    as [(_ & Hw & _)|[(Hg & _)|(Hg & _)]]; [done|congruence..].
Qed.


(** C4.  When an admitted frame's pose cannot be resolved, the call ends
    without the filter, the integrator or the hook for the new pose having
    run: after the failed lookup the trace holds none of their events, and
    the map, the integrator object and the mesh are what they were.  The
    call still returns normally, and the stream's last_msg_time is already
    the frame's stamp. *)
Theorem pose_failure_discards_frame (s : Stream)
    (pointcloud_msg : PointCloud2) (w : World) :
  let t := stamp (header pointcloud_msg) in
  let w' := exec (deliver s pointcloud_msg) w in
  too_soon t (watermark s w) (min_time_between_msgs_ (config w))
    = Some false ->
  (lookupTransform (transformer_ w) (frame_id (header pointcloud_msg))
     (world_frame_ (config w)) t).1 = None ->
  watermark s w' = t /\
  eval (deliver s pointcloud_msg) w = Returned /\
  tsdf_map_ w' = tsdf_map_ w /\
  tsdf_integrator_ w' = tsdf_integrator_ w /\
  mesh_layer_ w' = mesh_layer_ w /\
  exists rest,
    trace w' =
      trace w
      ++ Ev_lookupTransform (frame_id (header pointcloud_msg))
           (world_frame_ (config w)) t false :: rest /\
    Forall (fun e => is_downstream_stage e = false) rest.
Proof.
  cbv zeta. intros Hgate Hlookup.
  destruct s; destruct_world w; cbn in Hgate, Hlookup;
    unfold_server; cbn;
    rewrite Hgate; cbn; rewrite Hlookup; cbn;
    repeat (break_condition; cbn); rewrite <- ?app_assoc; cbn;
    (do 5 (split; [done|])); eexists; (split; [done|]);
    repeat constructor.
Qed.

(** ** The two watermarks *)

Lemma handle_config (req : Request) (w : World) :
  config (handle req w) = config w.
Proof.
  destruct req as [[] msg| | |request|request|]; destruct_world w;
    by run_server.
Qed.

Lemma generateMesh_layers (w : World) :
  let generated :=
    MeshIntegrator_generateMesh false true (tsdf_map_ w) (mesh_layer_ w) in
  tsdf_map_ (exec generateMesh w) = generated.1 /\
  mesh_layer_ (exec generateMesh w) = generated.2 /\
  exists before after,
    trace (exec generateMesh w) =
      trace w ++ before
      ++ Ev_publish "mesh" (world_frame_ (config w))
           (Pub_mesh generated.2 (color_mode_ (config w))) :: after.
Proof.
  destruct_world w. run_server; rewrite <- ?app_assoc; cbn;
    (do 2 (split; [done|]));
    exists [Ev_timer_start "mesh/generate"; Ev_generateMesh false true;
            Ev_timer_stop "mesh/generate"; Ev_timer_start "mesh/publish"];
    by eexists.
Qed.

Lemma handle_keeps_watermarks (req : Request) (w : World) :
  is_pointcloud_request req = false ->
  insertPointcloud_last_msg_time (handle req w)
    = insertPointcloud_last_msg_time w /\
  insertFreespacePointcloud_last_msg_time (handle req w)
    = insertFreespacePointcloud_last_msg_time w.
Proof.
  intros Hreq. destruct req as [s msg| | |request|request|]; [done|..];
    destruct_world w; by run_server.
Qed.

Lemma early_world_watermarks (w : World) :
  early_world w = true <->
  Time_early (watermark Primary w) = true /\
  Time_early (watermark Freespace w) = true.
Proof. unfold early_world. cbn. apply andb_true_iff. Qed.

(** One frame, with every stamp before 2^31 seconds: the two last_msg_time
    stay before 2^31 seconds, and each of them stays or moves forward by at
    least the minimum interval. *)
Lemma deliver_watermark_early (s s' : Stream) (pointcloud_msg : PointCloud2)
    (w : World) :
  Duration_normalized (min_time_between_msgs_ (config w)) = true ->
  early_world w = true ->
  Time_early (stamp (header pointcloud_msg)) = true ->
  let w' := exec (deliver s pointcloud_msg) w in
  early_world w' = true /\
  (watermark s' w' = watermark s' w \/
   Duration_nanoseconds (min_time_between_msgs_ (config w))
     <= nanoseconds (watermark s' w') - nanoseconds (watermark s' w)).
Proof.
  cbv zeta. intros Hinterval Hworld Hstamp.
  destruct (gate_decides s pointcloud_msg w)
    as [(Hg & Hw & _)|[(_ & Hw & _)|(_ & Hw & _)]];
    [|rewrite Hw; by split; [|left]..].
  assert (Hlast : Time_early (watermark s w) = true).
  { apply early_world_watermarks in Hworld as [? ?]. by destruct s. }
  apply Time_early_facts in Hlast as [Hlast Hlast_sec].
  pose proof Hstamp as Hstamp'.
  apply Time_early_facts in Hstamp' as [Hnorm Hstamp_sec].
  rewrite (too_soon_exact _ _ _ Hnorm Hlast Hinterval) in Hg by lia.
  injection Hg as Hg. gate_facts. split.
  - apply early_world_watermarks.
    apply early_world_watermarks in Hworld as [Hp Hf].
    destruct s; (split;
      [ first [ by rewrite Hw
              | by rewrite (deliver_other_watermark Freespace Primary) ]
      | first [ by rewrite Hw
              | by rewrite (deliver_other_watermark Primary Freespace) ] ]).
  - destruct s, s';
      first [ right; by rewrite Hw | left; by apply deliver_other_watermark ].
Qed.

Lemma handle_watermark_early (s : Stream) (req : Request) (w : World) :
  Duration_normalized (min_time_between_msgs_ (config w)) = true ->
  early_world w = true ->
  early_request req = true ->
  early_world (handle req w) = true /\
  (watermark s (handle req w) = watermark s w \/
   Duration_nanoseconds (min_time_between_msgs_ (config w))
     <= nanoseconds (watermark s (handle req w))
        - nanoseconds (watermark s w)).
Proof.
  intros Hinterval Hworld Hreq.
  destruct (is_pointcloud_request req) eqn:Hkind.
  - destruct req as [s0 msg| | | | |]; try done.
    cbn [handle]. destruct (subscribed s0 w); [|by split; [|left]].
    by apply deliver_watermark_early.
  - destruct (handle_keeps_watermarks req w Hkind) as [Hp Hf].
    split; [|left; by destruct s].
    unfold early_world in *. by rewrite Hp, Hf.
Qed.

Lemma run_app (before after : list Request) (w : World) :
  run (before ++ after) w = run after (run before w).
Proof. apply fold_left_app. Qed.

Lemma run_config (reqs : list Request) (w : World) :
  config (run reqs w) = config w.
Proof.
  revert w. induction reqs as [|req reqs IH]; intros w; [done|].
  change (run (req :: reqs) w) with (run reqs (handle req w)).
  by rewrite IH, handle_config.
Qed.

Lemma run_watermark_early (s : Stream) (reqs : list Request) (w : World) :
  0 <= Duration_nanoseconds (min_time_between_msgs_ (config w)) ->
  Duration_normalized (min_time_between_msgs_ (config w)) = true ->
  early_world w = true ->
  forallb early_request reqs = true ->
  early_world (run reqs w) = true /\
  (watermark s (run reqs w) = watermark s w \/
   Duration_nanoseconds (min_time_between_msgs_ (config w))
     <= nanoseconds (watermark s (run reqs w))
        - nanoseconds (watermark s w)).
Proof.
  revert w. induction reqs as [|req reqs IH];
    intros w Hmin Hinterval Hworld Hreqs; [by split; [|left]|].
  change (run (req :: reqs) w) with (run reqs (handle req w)).
  cbn in Hreqs. apply andb_prop in Hreqs as [Hreq Hreqs].
  destruct (handle_watermark_early s req w Hinterval Hworld Hreq)
    as [Hworld1 Hstep1].
  destruct (IH (handle req w)) as [Hworld2 Hstep2];
    rewrite ?handle_config; try done.
  rewrite handle_config in Hstep2. split; [done|].
  destruct Hstep1 as [Hsame1|Hmoved1], Hstep2 as [Hsame2|Hmoved2];
    first [ left; congruence | right; rewrite ?Hsame2, <- ?Hsame1; lia ].
Qed.

Lemma deliver_commutes_with_other_watermark (s s' : Stream)
    (pointcloud_msg : PointCloud2) (t : Time) (w : World) :
  s <> s' ->
  exec (deliver s pointcloud_msg) (set_watermark s' t w)
  = set_watermark s' t (exec (deliver s pointcloud_msg) w).
Proof.
  intros Hne. destruct s, s'; try done; destruct_world w; by run_server.
Qed.

(** C8, as the code has it.  With a minimum interval that is not
    negative, the last_msg_time of each stream never decreases along a
    sequence of requests all of whose stamps are stamps as roscpp makes
    them, before 2^31 seconds, as are the two last_msg_time at the start:
    after a longer run it is at least what it was after any shorter one.
    The two streams do not see each other: a frame delivered on one stream
    leaves the other stream's last_msg_time as it was, and does the same
    whatever value the other stream's last_msg_time has. *)
Theorem watermarks_monotone_and_independent (w : World) :
  0 <= Duration_nanoseconds (min_time_between_msgs_ (config w)) ->
  (forall s before after,
      Duration_normalized (min_time_between_msgs_ (config w)) = true ->
      early_world w = true ->
      forallb early_request (before ++ after) = true ->
      nanoseconds (watermark s (run before w))
      <= nanoseconds (watermark s (run (before ++ after) w))) /\
  (forall s s' pointcloud_msg,
      s <> s' ->
      watermark s' (exec (deliver s pointcloud_msg) w) = watermark s' w) /\
  (forall s s' pointcloud_msg t,
      s <> s' ->
      exec (deliver s pointcloud_msg) (set_watermark s' t w)
      = set_watermark s' t (exec (deliver s pointcloud_msg) w)).
Proof.
  intros Hmin. split; [|split].
  - intros s before after Hinterval Hworld Hreqs. rewrite run_app.
    rewrite forallb_app in Hreqs. apply andb_prop in Hreqs as [Hb Ha].
    destruct (run_watermark_early s before w) as [Hworld1 _]; try done.
    destruct (run_watermark_early s after (run before w)) as [_ Hstep];
      rewrite ?run_config; try done.
    rewrite run_config in Hstep. destruct Hstep as [->|Hmoved]; lia.
  - intros s s' msg Hne. by apply deliver_other_watermark.
  - intros s s' msg t Hne. by apply deliver_commutes_with_other_watermark.
Qed.

(** ** More on the services *)

Lemma emitted_app (w w' : World) (events : list Event) :
  trace w' = trace w ++ events -> emitted w w' = events.
Proof. intros Htrace. unfold emitted. by rewrite Htrace, drop_app_length. Qed.

(** X1.  The "save_map" service calls the layer writer once, on the map as
    it is and the path of the request, and answers what the writer
    answered.  Only the files change: the map, the mesh, the integrator,
    the transformer and the two statics are what they were. *)
Theorem saveMapCallback_only_writes_files (request : FilePathRequest)
    (w : World) :
  let saved := SaveLayer (tsdf_map_ w) (file_path request) (filesystem w) in
  let w' := exec (saveMapCallback request) w in
  eval (saveMapCallback request) w = saved.1 /\
  emitted w w' = [Ev_SaveLayer (file_path request) saved.1] /\
  filesystem w' = saved.2 /\
  tsdf_map_ w' = tsdf_map_ w /\
  mesh_layer_ w' = mesh_layer_ w /\
  tsdf_integrator_ w' = tsdf_integrator_ w /\
  transformer_ w' = transformer_ w /\
  insertPointcloud_last_msg_time w' = insertPointcloud_last_msg_time w /\
  insertFreespacePointcloud_last_msg_time w'
    = insertFreespacePointcloud_last_msg_time w.
Proof.
  cbv zeta. split; [by destruct_world w|]. split.
  - apply emitted_app. by destruct_world w.
  - by destruct_world w.
Qed.

(** ** The pipeline behind the gate *)

Lemma kept_points_finite (points : list PointXYZRGB) :
  forallb finite_point (List.map point_of (List.filter all_finite points))
  = true.
Proof.
  apply forallb_forall. intros p Hin.
  apply List.in_map_iff in Hin as (s & <- & Hs).
  apply List.filter_In in Hs as [_ Hfin].
  unfold all_finite, has_nonfinite_coordinate in Hfin.
  by rewrite negb_involutive in Hfin.
Qed.

Lemma kept_lengths (points : list PointXYZRGB) :
  (length (List.map point_of (List.filter all_finite points))
   =? length (List.map color_of (List.filter all_finite points)))%nat = true.
Proof. rewrite !length_map. apply Nat.eqb_refl. Qed.

(** X3.  With a pose, processPointCloudMessageAndInsert asks for the pose
    once, filters, calls the integrator once on the kept points and colours
    with the role flag it was given, and then calls the hook for the new
    pose with the same transform; the two log lines appear when verbose_ is
    set, the second with the number of blocks of the map as the integrator
    left it.  The map and the integrator object are the integrator's
    results, the transformer is the lookup's; the mesh, the files and the
    two statics are untouched. *)
Theorem resolved_pose_runs_the_pipeline (pointcloud_msg : PointCloud2)
    (is_freespace_pointcloud : bool) (w : World) (T_G_C : Transformation) :
  let looked_up :=
    lookupTransform (transformer_ w) (frame_id (header pointcloud_msg))
      (world_frame_ (config w)) (stamp (header pointcloud_msg)) in
  let kept :=
    List.filter all_finite (fromROSMsg (fix_rgb_fields pointcloud_msg)) in
  let integrated :=
    integratePointCloud (tsdf_integrator_ w) T_G_C (List.map point_of kept)
      (List.map color_of kept) is_freespace_pointcloud (tsdf_map_ w) in
  let w' :=
    exec (processPointCloudMessageAndInsert pointcloud_msg
            is_freespace_pointcloud) w in
  looked_up.1 = Some T_G_C ->
  emitted w w' =
    [Ev_lookupTransform (frame_id (header pointcloud_msg))
       (world_frame_ (config w)) (stamp (header pointcloud_msg)) true;
     Ev_timer_start "ptcloud_preprocess";
     Ev_timer_stop "ptcloud_preprocess"]
    ++ (if verbose_ (config w)
        then [Ev_info (Log_integrating (length kept))] else [])
    ++ [Ev_integratePointCloud T_G_C (List.map point_of kept)
          (List.map color_of kept) is_freespace_pointcloud]
    ++ (if verbose_ (config w)
        then [Ev_info (Log_finished_integrating (size integrated.2))]
        else [])
    ++ [Ev_newPoseCallback T_G_C] /\
  tsdf_integrator_ w' = integrated.1 /\
  tsdf_map_ w' = integrated.2 /\
  transformer_ w' = looked_up.2 /\
  mesh_layer_ w' = mesh_layer_ w /\
  filesystem w' = filesystem w /\
  insertPointcloud_last_msg_time w' = insertPointcloud_last_msg_time w /\
  insertFreespacePointcloud_last_msg_time w'
    = insertFreespacePointcloud_last_msg_time w.
Proof.
  cbv zeta. intros Hlookup. destruct_world w. cbn in Hlookup.
  unfold emitted. unfold_server. cbn. rewrite Hlookup. cbn.
  rewrite collect_finite_points_acc. cbn. rewrite length_map.
  destruct verbose; cbn; rewrite <- ?app_assoc; cbn;
    by rewrite drop_app_length.
Qed.

(** X4.  When insertPointcloud admits a frame, it first processes it and
    then, whether or not the pose was resolved, publishes the diagnostics
    that the configuration asks for: the three TSDF publications when
    publish_tsdf_info_ is set, then the slice when publish_slices_ is set,
    then the two log lines when verbose_ is set.  Every one of these
    publications carries the map as processing left it, which is the map
    after the call. *)
Theorem insertPointcloud_publishes_after_processing
    (pointcloud_msg : PointCloud2) (w : World) :
  let t := stamp (header pointcloud_msg) in
  let processed :=
    exec (processPointCloudMessageAndInsert pointcloud_msg false)
      (set_insertPointcloud_last_msg_time t w) in
  let w' := exec (insertPointcloud pointcloud_msg) w in
  too_soon t (insertPointcloud_last_msg_time w)
    (min_time_between_msgs_ (config w)) = Some false ->
  trace w' = trace processed ++ diagnostics (config w) (tsdf_map_ w') /\
  tsdf_map_ w' = tsdf_map_ processed /\
  tsdf_integrator_ w' = tsdf_integrator_ processed /\
  transformer_ w' = transformer_ processed.
Proof.
  cbv zeta. intros Hgate. destruct_world w. cbn in Hgate.
  unfold diagnostics. unfold_server. cbn.
  rewrite Hgate. cbn.
  repeat (break_condition; cbn); rewrite <- ?app_assoc; cbn;
    by rewrite ?app_nil_r.
Qed.

(** X8.  With a positive minimum interval a frame that is delivered twice
    in a row on a stream counts once: the second delivery is dropped,
    whatever happened to the first. *)
Theorem repeated_frame_is_dropped (s : Stream) (pointcloud_msg : PointCloud2)
    (w : World) :
  Duration_lt (mkDuration 0 0) (min_time_between_msgs_ (config w)) = true ->
  exec (deliver s pointcloud_msg) (exec (deliver s pointcloud_msg) w)
  = exec (deliver s pointcloud_msg) w.
Proof.
  intros Hmin.
  destruct (gate_decides s pointcloud_msg w)
    as [(_ & Hw & _)|[(_ & Hw & _)|(_ & Hw & _)]];
    [|by rewrite !Hw..].
  apply deliver_dropped.
  rewrite deliver_config, Hw. unfold too_soon.
  rewrite Time_minus_self, Hmin. done.
Qed.

(** X9.  A frame on either stream never touches the mesh layer, the files
    or the configuration, and adds no call of the mesh integrator, of the
    PLY writer or of the layer (de)serialiser to the trace. *)
Theorem frames_leave_mesh_and_files_alone (s : Stream)
    (pointcloud_msg : PointCloud2) (w : World) :
  let w' := exec (deliver s pointcloud_msg) w in
  mesh_layer_ w' = mesh_layer_ w /\
  filesystem w' = filesystem w /\
  config w' = config w /\
  Forall (fun e => match e with
                   | Ev_generateMesh _ _ | Ev_outputMeshLayerAsPly _ _
                   | Ev_SaveLayer _ _ | Ev_LoadBlocksFromFile _ _ _ => False
                   | _ => True
                   end) (emitted w w').
Proof.
  cbv zeta. unfold emitted.
  destruct s; destruct_world w; run_server; rewrite <- ?app_assoc; cbn;
    (do 3 (split; [done|]));
    first [ rewrite drop_app_length; by repeat constructor
          | rewrite drop_all; by constructor ].
Qed.

(** ** What a run of requests hands to the integrator and the publishers *)

Lemma handle_emits (req : Request) (w : World) :
  exists events,
    trace (handle req w) = trace w ++ events /\
    forallb well_formed_integration (integrations_of events) = true /\
    forallb (expected_publication (world_frame_ (config w)))
      (publications_of events) = true /\
    (length (integrations_of events) <= length (lookups_of events))%nat /\
    (length (lookups_of events)
     <= if is_pointcloud_request req then 1 else 0)%nat.
Proof.
  destruct req as [[] msg| | |request|request|]; destruct_world w;
    run_server; rewrite <- ?app_assoc; cbn;
    (first [ exists []; split; [by rewrite app_nil_r|]
           | eexists; split; [reflexivity|] ]);
    cbn; rewrite ?collect_finite_points_acc; cbn;
    unfold well_formed_integration; cbn [fst snd];
    rewrite ?kept_points_finite, ?kept_lengths, ?String.eqb_refl; cbn;
    repeat split; first [ done | lia ].
Qed.

Lemma run_emits (reqs : list Request) (w : World) :
  exists events,
    trace (run reqs w) = trace w ++ events /\
    forallb well_formed_integration (integrations_of events) = true /\
    forallb (expected_publication (world_frame_ (config w)))
      (publications_of events) = true /\
    (length (integrations_of events) <= length (lookups_of events))%nat /\
    (length (lookups_of events)
     <= length (List.filter is_pointcloud_request reqs))%nat.
Proof.
  revert w. induction reqs as [|req reqs IH]; intros w.
  - exists []. cbn. by rewrite app_nil_r.
  - change (run (req :: reqs) w) with (run reqs (handle req w)).
    destruct (handle_emits req w) as (ev1 & Ht1 & Hi1 & Hp1 & Hc1 & Hl1).
    destruct (IH (handle req w)) as (ev2 & Ht2 & Hi2 & Hp2 & Hc2 & Hl2).
    rewrite handle_config in Hp2.
    exists (ev1 ++ ev2). unfold integrations_of, publications_of, lookups_of.
    rewrite !omap_app, !forallb_app, !length_app.
    fold (integrations_of ev1) (integrations_of ev2)
         (publications_of ev1) (publications_of ev2)
         (lookups_of ev1) (lookups_of ev2).
    rewrite Ht2, Ht1, Hi1, Hi2, Hp1, Hp2, <- app_assoc.
    do 3 (split; [done|]). split; [lia|].
    cbn [List.filter]. destruct (is_pointcloud_request req); cbn; lia.
Qed.

(** X6.  Along every sequence of requests, every call of the integrator
    gets points all of whose coordinates are finite, and exactly as many
    colours as points. *)
Theorem integrator_only_sees_finite_points (reqs : list Request)
    (w : World) :
  forallb well_formed_integration
    (integrations_of (emitted w (run reqs w))) = true.
Proof.
  destruct (run_emits reqs w) as (events & Htrace & Hwf & _).
  by rewrite (emitted_app _ _ _ Htrace).
Qed.

(** X11.  Along every sequence of requests, everything that is published
    goes to one of the five advertised topics and is tagged with
    world_frame_. *)
Theorem publications_use_world_frame (reqs : list Request) (w : World) :
  forallb (expected_publication (world_frame_ (config w)))
    (publications_of (emitted w (run reqs w))) = true.
Proof.
  destruct (run_emits reqs w) as (events & Htrace & _ & Hpub & _).
  by rewrite (emitted_app _ _ _ Htrace).
Qed.

(** X12.  Along every sequence of requests, the integrator is called at
    most once for each pose lookup, and there is at most one pose lookup
    for each pointcloud message in the sequence: the timer and the services
    cause neither. *)
Theorem at_most_one_integration_per_frame (reqs : list Request)
    (w : World) :
  let events := emitted w (run reqs w) in
  (length (integrations_of events) <= length (lookups_of events))%nat /\
  (length (lookups_of events)
   <= length (List.filter is_pointcloud_request reqs))%nat.
Proof.
  cbv zeta. destruct (run_emits reqs w) as (events & Htrace & _ & _ & Hc).
  by rewrite (emitted_app _ _ _ Htrace).
Qed.

(** X5.  The role flag that reaches the integrator is fixed by the stream:
    false for a frame on the primary stream and true for a frame on the
    freespace stream.  A frame on the freespace stream publishes
    nothing. *)
Theorem role_flag_follows_the_stream (s : Stream)
    (pointcloud_msg : PointCloud2) (w : World) :
  Forall (fun call => call.2 = match s with
                               | Primary => false
                               | Freespace => true
                               end)
    (integrations_of (emitted w (exec (deliver s pointcloud_msg) w))) /\
  publications_of
    (emitted w (exec (insertFreespacePointcloud pointcloud_msg) w)) = [].
Proof.
  unfold emitted. split.
  - destruct s; destruct_world w; run_server; rewrite <- ?app_assoc; cbn;
      first [ rewrite drop_app_length; cbn; by repeat constructor
            | rewrite drop_all; by constructor ].
  - destruct_world w; run_server; rewrite <- ?app_assoc; cbn;
      first [ by rewrite drop_app_length | by rewrite drop_all ].
Qed.

(** X10.  The mesh timer, the three services and clear stay off the
    pipeline: they ask for no pose and call no integrator, and leave the
    integrator object, the transformer and the two statics as they
    were. *)
Theorem only_frames_reach_the_integrator (req : Request) (w : World) :
  is_pointcloud_request req = false ->
  let w' := handle req w in
  integrations_of (emitted w w') = [] /\
  lookups_of (emitted w w') = [] /\
  tsdf_integrator_ w' = tsdf_integrator_ w /\
  transformer_ w' = transformer_ w /\
  insertPointcloud_last_msg_time w' = insertPointcloud_last_msg_time w /\
  insertFreespacePointcloud_last_msg_time w'
    = insertFreespacePointcloud_last_msg_time w.
Proof.
  cbv zeta. intros Hreq. unfold emitted.
  destruct req as [s msg| | |request|request|]; [done|..];
    destruct_world w; run_server; rewrite <- ?app_assoc; cbn;
    rewrite ?drop_app_length, ?drop_all; by cbn.
Qed.

(** ** The throttle *)

(** X7.  With a minimum interval that is not negative, along a sequence
    of requests all of whose stamps are stamps as roscpp makes them, before
    2^31 seconds, as are the two last_msg_time at the start: between any
    two moments of the run a stream's last_msg_time has either not moved or
    moved forward by at least the minimum interval, so no two frames closer
    than that are both admitted. *)
Theorem admitted_frames_are_spaced (s : Stream) (reqs : list Request)
    (w : World) :
  0 <= Duration_nanoseconds (min_time_between_msgs_ (config w)) ->
  Duration_normalized (min_time_between_msgs_ (config w)) = true ->
  early_world w = true ->
  forallb early_request reqs = true ->
  watermark s (run reqs w) = watermark s w \/
  Duration_nanoseconds (min_time_between_msgs_ (config w))
    <= nanoseconds (watermark s (run reqs w))
       - nanoseconds (watermark s w).
Proof.
  intros Hmin Hinterval Hworld Hreqs.
  by destruct (run_watermark_early s reqs w Hmin Hinterval Hworld Hreqs).
Qed.

End ServerFacts.

(** ** The mesh integrator of the specification, run twice *)

Section MeshIntegratorSpec.

Context {V Msh : Type} (extract : gmap BlockIndex V -> BlockIndex -> Msh).

Lemma full_pass_layer (layer : Layer V) (mesh : MeshLayer Msh) :
  (spec_generateMesh extract false true layer mesh).1
  = (fun blk => mkBlock (voxels blk) false) <$> layer.
Proof. done. Qed.

Lemma full_pass_keeps_voxels (layer : Layer V) (mesh : MeshLayer Msh) :
  voxels <$> (spec_generateMesh extract false true layer mesh).1
  = voxels <$> layer.
Proof.
  rewrite full_pass_layer, <- map_fmap_compose. by apply map_fmap_ext.
Qed.

Lemma full_pass_mesh (layer : Layer V) (mesh : MeshLayer Msh)
    (idx : BlockIndex) :
  (spec_generateMesh extract false true layer mesh).2 !! idx
  = match layer !! idx with
    | Some _ => Some (extract (voxels <$> layer) idx)
    | None => mesh !! idx
    end.
Proof.
  unfold spec_generateMesh. cbn.
  rewrite lookup_union, map_lookup_imap.
  destruct (layer !! idx) as [blk|]; cbn; [|by rewrite (left_id None _)].
  by destruct (mesh !! idx).
Qed.

Lemma full_pass_twice (layer : Layer V) (mesh : MeshLayer Msh) :
  let once := spec_generateMesh extract false true layer mesh in
  spec_generateMesh extract false true once.1 once.2 = once.
Proof.
  cbv zeta.
  set (once := spec_generateMesh extract false true layer mesh).
  apply injective_projections.
  - rewrite full_pass_layer. unfold once. rewrite full_pass_layer.
    rewrite <- map_fmap_compose. by apply map_fmap_ext.
  - apply map_eq. intros idx. rewrite full_pass_mesh.
    unfold once at 2. rewrite full_pass_keeps_voxels.
    unfold once. rewrite full_pass_layer, lookup_fmap, full_pass_mesh.
    by destruct (layer !! idx).
Qed.

End MeshIntegratorSpec.

Section FullCycleTwice.

Context {carriers : Carriers} {collab : Collaborators}.

(** C9.  With the mesh integrator of the specification, a second full cycle
    right after a first one leaves the mesh layer, and the map with its
    cleared flags, exactly as the first cycle left them, and publishes the
    same mesh layer again. *)
Theorem repeated_full_pass_changes_nothing
    (extract : gmap BlockIndex Voxels -> BlockIndex -> Mesh) (w : World) :
  (forall only_updated clear_flag layer mesh,
      MeshIntegrator_generateMesh only_updated clear_flag layer mesh
      = spec_generateMesh extract only_updated clear_flag layer mesh) ->
  let once := exec generateMesh w in
  let twice := exec generateMesh once in
  mesh_layer_ twice = mesh_layer_ once /\
  tsdf_map_ twice = tsdf_map_ once /\
  Ev_publish "mesh" (world_frame_ (config w))
    (Pub_mesh (mesh_layer_ once) (color_mode_ (config w)))
    ∈ drop (length (trace once)) (trace twice).
Proof.
  intros Hspec once twice.
  destruct (generateMesh_layers w) as (Hmap1 & Hmesh1 & _).
  destruct (generateMesh_layers once)
    as (Hmap2 & Hmesh2 & before & after & Htrace2).
  fold once in Hmap1, Hmesh1. fold twice in Htrace2, Hmap2, Hmesh2.
  assert (Hcfg : config once = config w).
  { apply (handle_config Req_generate_mesh). }
  pose proof (full_pass_twice extract (tsdf_map_ w) (mesh_layer_ w)) as Htw.
  cbv zeta in Htw.
  rewrite Hspec in Hmap1, Hmesh1.
  rewrite Hspec, Hmap1, Hmesh1, Htw in Hmap2, Hmesh2.
  split; [congruence|]. split; [congruence|].
  rewrite Htrace2, drop_app_length, Hcfg, Hspec, Hmap1, Hmesh1, Htw.
  apply elem_of_app. right. apply list_elem_of_here.
Qed.

End FullCycleTwice.

(** ** The rgb field and the constructor's choices *)

(** X2.  The fix of the rgb field changes no header, no data and no field
    name, keeps the fields in their number and order, gives every field
    called "rgb" the datatype FLOAT32 and leaves the datatype of every
    other field alone; applied twice it does what it does applied once. *)
Theorem fix_rgb_fields_retypes_rgb_only (msg : PointCloud2) :
  header (fix_rgb_fields msg) = header msg /\
  data (fix_rgb_fields msg) = data msg /\
  length (fields (fix_rgb_fields msg)) = length (fields msg) /\
  (forall i,
      fields (fix_rgb_fields msg) !! i
      = (fun f => mkPointField (name f)
                    (if String.eqb (name f) "rgb" then FLOAT32
                     else datatype f)) <$> fields msg !! i) /\
  fix_rgb_fields (fix_rgb_fields msg) = fix_rgb_fields msg.
Proof.
  destruct msg as [hdr flds bytes]. unfold fix_rgb_fields. cbn.
  split; [done|]. split; [done|]. split; [by rewrite length_map|]. split.
  - intros i. revert i.
    induction flds as [|[nm ty] flds IH]; intros [|i]; cbn; try done.
    unfold fix_rgb_field. cbn. by destruct (String.eqb nm "rgb").
  - f_equal. induction flds as [|[nm ty] flds IH]; cbn; [done|].
    rewrite IH. f_equal. unfold fix_rgb_field. cbn.
    destruct (String.eqb nm "rgb") eqn:Hrgb; cbn; by rewrite Hrgb.
Qed.

(** X13.  The colour mode is chosen by exact match of the parameter:
    "color" and "colors" both give kColor, "height", "normals", "lambert"
    and "lambert_color" give their modes, and every other string, "gray"
    included, gives kGray. *)
Theorem select_color_mode_table (color_mode : string) :
  (select_color_mode color_mode = kColor
   <-> color_mode = "color" \/ color_mode = "colors") /\
  (select_color_mode color_mode = kHeight <-> color_mode = "height") /\
  (select_color_mode color_mode = kNormals <-> color_mode = "normals") /\
  (select_color_mode color_mode = kLambert <-> color_mode = "lambert") /\
  (select_color_mode color_mode = kLambertColor
   <-> color_mode = "lambert_color") /\
  (select_color_mode color_mode = kGray
   <-> color_mode <> "color" /\ color_mode <> "colors" /\
       color_mode <> "height" /\ color_mode <> "normals" /\
       color_mode <> "lambert" /\ color_mode <> "lambert_color").
Proof.
  unfold select_color_mode.
  destruct (String.eqb_spec color_mode "color") as [->|?];
    [cbn; by intuition|].
  destruct (String.eqb_spec color_mode "colors") as [->|?];
    [cbn; by intuition|].
  destruct (String.eqb_spec color_mode "height") as [->|?];
    [cbn; by intuition|].
  destruct (String.eqb_spec color_mode "normals") as [->|?];
    [cbn; by intuition|].
  destruct (String.eqb_spec color_mode "lambert") as [->|?];
    [cbn; by intuition|].
  destruct (String.eqb_spec color_mode "lambert_color") as [->|?];
    cbn; by intuition.
Qed.

Lemma compare_refl (s : string) : String.compare s s = Eq.
Proof.
  induction s as [|c s IH]; cbn; [done|].
  assert (Hc : Ascii.compare c c = Eq).
  { unfold Ascii.compare. apply N.compare_refl. }
  by rewrite Hc.
Qed.

Lemma compare_is_zero_eqb (s1 s2 : string) :
  compare_is_zero s1 s2 = String.eqb s1 s2.
Proof.
  unfold compare_is_zero. destruct (String.eqb_spec s1 s2) as [->|Hne].
  - by rewrite compare_refl.
  - destruct (String.compare s1 s2) eqn:Hcmp; try done.
    by apply String.compare_eq_iff in Hcmp.
Qed.

(** X14.  The integrator is chosen by exact match of the "method"
    parameter: the merged integrator for "merged" and "merged_discard", the
    fast one for "fast", and the simple one for "simple" and for every
    other string.  Only the two merged methods write enable_anti_grazing,
    false for "merged" and true for "merged_discard"; no method changes any
    other setting. *)
Theorem select_integrator_table {Settings : Type} (method : string)
    (integrator_config : IntegratorConfig Settings) :
  let chosen := select_integrator method integrator_config in
  (chosen.1 = MergedTsdfIntegrator
   <-> method = "merged" \/ method = "merged_discard") /\
  (chosen.1 = FastTsdfIntegrator <-> method = "fast") /\
  (chosen.1 = SimpleTsdfIntegrator
   <-> method <> "merged" /\ method <> "merged_discard" /\
       method <> "fast") /\
  other_settings chosen.2 = other_settings integrator_config /\
  enable_anti_grazing chosen.2 =
    (if String.eqb method "merged" then false
     else if String.eqb method "merged_discard" then true
     else enable_anti_grazing integrator_config).
Proof.
  cbv zeta. unfold select_integrator. rewrite !compare_is_zero_eqb.
  destruct (String.eqb_spec method "simple") as [->|?];
    [cbn; by intuition|].
  destruct (String.eqb_spec method "merged") as [->|?];
    [cbn; by intuition|].
  destruct (String.eqb_spec method "merged_discard") as [->|?];
    [cbn; by intuition|].
  destruct (String.eqb_spec method "fast") as [->|?]; cbn; by intuition.
Qed.

(** * The server at work on concrete collaborators *)

(** Scenario A: the stream's last_msg_time is 150 and the next frame comes
    50 ns later, less than the 100 ns asked for.  The frame is dropped and
    nothing changes. *)
Example scenario_dropped_frame :
  let w := exec (insertPointcloud (Demo.camera_frame 150)) Demo.throttled in
  exec (insertPointcloud (Demo.camera_frame 200)) w = w.
Proof. vm_compute. reflexivity. Qed.

(** Scenario B: a frame 150 ns after the last one, with a pose: the
    integrator is called once, with the one finite sample. *)
Example scenario_admitted_frame :
  let w := exec (insertPointcloud (Demo.camera_frame 150)) Demo.throttled in
  insertPointcloud_last_msg_time w = Demo.stamp_of 150 /\
  tsdf_integrator_ w = 1%nat /\
  trace w =
    [Ev_lookupTransform "camera" "world" (Demo.stamp_of 150) true;
     Ev_timer_start "ptcloud_preprocess";
     Ev_timer_stop "ptcloud_preprocess";
     Ev_info (Log_integrating 1);
     Ev_integratePointCloud 150
       [mkPoint Float32.one Float32.two Float32.one] [mkColor 0 0 0 255]
       false;
     Ev_info (Log_finished_integrating 1);
     Ev_newPoseCallback 150;
     Ev_info Log_timings;
     Ev_info Log_layer_memory].
Proof. vm_compute. repeat split; reflexivity. Qed.

(** Scenario C: the same frame from a sensor without a pose. *)
Example scenario_unresolved_pose :
  let w := exec (insertPointcloud (Demo.lidar_frame 150)) Demo.throttled in
  insertPointcloud_last_msg_time w = Demo.stamp_of 150 /\
  tsdf_integrator_ w = 0%nat /\
  trace w =
    [Ev_lookupTransform "lidar" "world" (Demo.stamp_of 150) false;
     Ev_info Log_timings;
     Ev_info Log_layer_memory].
Proof. vm_compute. repeat split; reflexivity. Qed.



Lemma pose_failure_discards_frame_witness :
  too_soon (stamp (header (Demo.lidar_frame 150)))
    (watermark Freespace Demo.throttled)
    (min_time_between_msgs_ (config Demo.throttled)) = Some false /\
  (lookupTransform (transformer_ Demo.throttled)
     (frame_id (header (Demo.lidar_frame 150)))
     (world_frame_ (config Demo.throttled))
     (stamp (header (Demo.lidar_frame 150)))).1 = None /\
  watermark Freespace
    (exec (deliver Freespace (Demo.lidar_frame 150)) Demo.throttled)
    = stamp (header (Demo.lidar_frame 150)) /\
  tsdf_map_ (exec (deliver Freespace (Demo.lidar_frame 150)) Demo.throttled)
    = tsdf_map_ Demo.throttled.
Proof.
  assert (Hgate : too_soon (stamp (header (Demo.lidar_frame 150)))
                    (watermark Freespace Demo.throttled)
                    (min_time_between_msgs_ (config Demo.throttled))
                  = Some false)
    by (vm_compute; reflexivity).
  assert (Hlookup :
            (lookupTransform (transformer_ Demo.throttled)
               (frame_id (header (Demo.lidar_frame 150)))
               (world_frame_ (config Demo.throttled))
               (stamp (header (Demo.lidar_frame 150)))).1 = None)
    by (vm_compute; reflexivity).
  destruct (pose_failure_discards_frame Freespace (Demo.lidar_frame 150)
              Demo.throttled Hgate Hlookup) as (Hmark & _ & Hmap & _).
  exact (conj Hgate (conj Hlookup (conj Hmark Hmap))).
Defined.

Lemma watermarks_monotone_and_independent_witness :
  0 <= Duration_nanoseconds (min_time_between_msgs_ (config Demo.throttled))
  /\
  nanoseconds
    (watermark Primary
       (run [Req_pointcloud Primary (Demo.camera_frame 150)] Demo.throttled))
  <= nanoseconds
       (watermark Primary
          (run ([Req_pointcloud Primary (Demo.camera_frame 150)]
                ++ [Req_pointcloud Primary (Demo.camera_frame 300)])
             Demo.throttled)).
Proof.
  assert (Hmin : 0 <= Duration_nanoseconds
                        (min_time_between_msgs_ (config Demo.throttled)))
    by (vm_compute; discriminate).
  split; [exact Hmin|].
  apply (proj1 (watermarks_monotone_and_independent Demo.throttled Hmin)
           Primary [Req_pointcloud Primary (Demo.camera_frame 150)]
           [Req_pointcloud Primary (Demo.camera_frame 300)]);
    vm_compute; reflexivity.
Defined.

(** C8, the counterexample.  With the older roscpp, frames stamped
    2 * 10^9 s and 3 * 10^9 s are admitted one after the other; then a
    frame stamped 5 * 10^8 s arrives.  Its stamp minus the last_msg_time is
    negative, the difference of the seconds cast to 32 bits is not, and the
    frame is admitted: the last_msg_time moves back by 2.5 * 10^9 s. *)
Lemma watermark_moves_back_on_wrapped_difference :
  let f1 := Req_pointcloud Primary (Demo.camera_frame 2000000000000000000) in
  let f2 := Req_pointcloud Primary (Demo.camera_frame 3000000000000000000) in
  let f3 := Req_pointcloud Primary (Demo.camera_frame 500000000000000000) in
  0 <= Duration_nanoseconds (min_time_between_msgs_ (config Demo.throttled))
  /\
  nanoseconds (watermark Primary (run [f1; f2] Demo.throttled))
    = 3000000000000000000 /\
  nanoseconds (watermark Primary (run ([f1; f2] ++ [f3]) Demo.throttled))
    = 500000000000000000.
Proof.
  cbv zeta. split; [vm_compute; discriminate|].
  vm_compute. split; reflexivity.
Qed.

Lemma repeated_full_pass_witness :
  (forall only_updated clear_flag layer mesh,
      MeshIntegrator_generateMesh only_updated clear_flag layer mesh
      = spec_generateMesh Demo.extract only_updated clear_flag layer mesh) /\
  mesh_layer_
    (exec generateMesh
       (exec generateMesh
          (exec (insertPointcloud (Demo.camera_frame 150)) Demo.exporting)))
  = mesh_layer_
      (exec generateMesh
         (exec (insertPointcloud (Demo.camera_frame 150)) Demo.exporting)).
Proof.
  assert (Hspec : forall only_updated clear_flag layer mesh,
             MeshIntegrator_generateMesh only_updated clear_flag layer mesh
             = spec_generateMesh Demo.extract only_updated clear_flag layer
                 mesh)
    by reflexivity.
  split; [exact Hspec|].
  exact (proj1 (repeated_full_pass_changes_nothing Demo.extract
                  (exec (insertPointcloud (Demo.camera_frame 150))
                     Demo.exporting) Hspec)).
Defined.

(** C2, the counterexample.  The server exports to "/ro/mesh.ply", which
    cannot be written: the PLY writer is called once and answers false, and
    the service still answers true. *)
Lemma generateMeshCallback_true_on_failed_export :
  exports_of
    (trace (exec generateMeshCallback
              (exec (insertPointcloud (Demo.camera_frame 150))
                 Demo.exporting)))
  = [("/ro/mesh.ply", false)] /\
  eval generateMeshCallback
    (exec (insertPointcloud (Demo.camera_frame 150)) Demo.exporting)
  = true.
Proof. vm_compute. split; reflexivity. Qed.

(** C7, the counterexample.  A map with one block is saved, a second frame
    changes the block, and the saved map is loaded by a caller that wants
    the blocks merged.  The loader is called once, with kReplace and not
    with kMerge, and the block that results is the stored one, not the
    merged one. *)
Lemma loadMapCallback_replaces_where_merge_is_wanted :
  let request := mkFilePathRequest "/maps/a" in
  let w :=
    run [Req_pointcloud Primary (Demo.camera_frame 150);
         Req_save_map request;
         Req_pointcloud Primary (Demo.camera_frame 300)] Demo.throttled in
  let wanted := kMerge in
  loads_of (trace (exec (loadMapCallback request) w))
    = [("/maps/a", kReplace, true)] /\
  kReplace <> wanted /\
  voxels <$> tsdf_map_ (exec (loadMapCallback request) w) !! Demo.origin
    = Some 1 /\
  voxels <$>
    (LoadBlocksFromFile "/maps/a" wanted (tsdf_map_ w) (filesystem w)).2
      !! Demo.origin
    = Some 2.
Proof. vm_compute. repeat split; try reflexivity. discriminate. Qed.

(** With a loader that restores blocks as they were stored, flag cleared,
    the server adds no marking of its own: the block that was loaded is not
    dirty, and the next timer cycle does not mesh it. *)
Example loadMapCallback_adds_no_marking :
  let request := mkFilePathRequest "/maps/a" in
  let w :=
    run [Req_pointcloud Primary (Demo.camera_frame 150);
         Req_save_map request;
         Req_clear;
         Req_load_map request] Demo.throttled in
  updated <$> tsdf_map_ w !! Demo.origin = Some false /\
  mesh_layer_ (exec updateMeshEvent w) !! Demo.origin = None.
Proof. vm_compute. split; reflexivity. Qed.

Lemma resolved_pose_runs_the_pipeline_witness :
  (lookupTransform (transformer_ Demo.throttled)
     (frame_id (header (Demo.camera_frame 150)))
     (world_frame_ (config Demo.throttled))
     (stamp (header (Demo.camera_frame 150)))).1 = Some 150 /\
  mesh_layer_
    (exec (processPointCloudMessageAndInsert (Demo.camera_frame 150) false)
       Demo.throttled)
  = mesh_layer_ Demo.throttled.
Proof.
  assert (Hlookup :
            (lookupTransform (transformer_ Demo.throttled)
               (frame_id (header (Demo.camera_frame 150)))
               (world_frame_ (config Demo.throttled))
               (stamp (header (Demo.camera_frame 150)))).1 = Some 150)
    by (vm_compute; reflexivity).
  split; [exact Hlookup|].
  exact (proj1 (proj2 (proj2 (proj2 (proj2
           (resolved_pose_runs_the_pipeline (Demo.camera_frame 150) false
              Demo.throttled 150 Hlookup)))))).
Defined.

Lemma insertPointcloud_publishes_after_processing_witness :
  too_soon (stamp (header (Demo.camera_frame 150)))
    (insertPointcloud_last_msg_time Demo.throttled)
    (min_time_between_msgs_ (config Demo.throttled)) = Some false /\
  tsdf_map_ (exec (insertPointcloud (Demo.camera_frame 150)) Demo.throttled)
  = tsdf_map_
      (exec (processPointCloudMessageAndInsert (Demo.camera_frame 150) false)
         (set_insertPointcloud_last_msg_time
            (stamp (header (Demo.camera_frame 150))) Demo.throttled)).
Proof.
  assert (Hgate : too_soon (stamp (header (Demo.camera_frame 150)))
                    (insertPointcloud_last_msg_time Demo.throttled)
                    (min_time_between_msgs_ (config Demo.throttled))
                  = Some false)
    by (vm_compute; reflexivity).
  split; [exact Hgate|].
  exact (proj1 (proj2 (insertPointcloud_publishes_after_processing
                         (Demo.camera_frame 150) Demo.throttled Hgate))).
Defined.

Lemma admitted_frames_are_spaced_witness :
  0 <= Duration_nanoseconds (min_time_between_msgs_ (config Demo.throttled))
  /\
  Duration_normalized (min_time_between_msgs_ (config Demo.throttled))
    = true /\
  early_world Demo.throttled = true /\
  forallb early_request
    [Req_pointcloud Primary (Demo.camera_frame 150);
     Req_pointcloud Primary (Demo.camera_frame 200)] = true /\
  (watermark Primary
     (run [Req_pointcloud Primary (Demo.camera_frame 150);
           Req_pointcloud Primary (Demo.camera_frame 200)] Demo.throttled)
   = watermark Primary Demo.throttled \/
   Duration_nanoseconds (min_time_between_msgs_ (config Demo.throttled))
     <= nanoseconds
          (watermark Primary
             (run [Req_pointcloud Primary (Demo.camera_frame 150);
                   Req_pointcloud Primary (Demo.camera_frame 200)]
                Demo.throttled))
        - nanoseconds (watermark Primary Demo.throttled)).
Proof.
  assert (Hmin : 0 <= Duration_nanoseconds
                        (min_time_between_msgs_ (config Demo.throttled)))
    by (vm_compute; discriminate).
  assert (Hinterval :
            Duration_normalized
              (min_time_between_msgs_ (config Demo.throttled)) = true)
    by (vm_compute; reflexivity).
  assert (Hworld : early_world Demo.throttled = true)
    by (vm_compute; reflexivity).
  assert (Hreqs : forallb early_request
                    [Req_pointcloud Primary (Demo.camera_frame 150);
                     Req_pointcloud Primary (Demo.camera_frame 200)] = true)
    by (vm_compute; reflexivity).
  exact (conj Hmin (conj Hinterval (conj Hworld (conj Hreqs
           (admitted_frames_are_spaced Primary
              [Req_pointcloud Primary (Demo.camera_frame 150);
               Req_pointcloud Primary (Demo.camera_frame 200)]
              Demo.throttled Hmin Hinterval Hworld Hreqs))))).
Defined.

Lemma repeated_frame_is_dropped_witness :
  Duration_lt (mkDuration 0 0)
    (min_time_between_msgs_ (config Demo.throttled)) = true /\
  exec (deliver Primary (Demo.camera_frame 150))
    (exec (deliver Primary (Demo.camera_frame 150)) Demo.throttled)
  = exec (deliver Primary (Demo.camera_frame 150)) Demo.throttled.
Proof.
  assert (Hmin : Duration_lt (mkDuration 0 0)
                   (min_time_between_msgs_ (config Demo.throttled)) = true)
    by (vm_compute; reflexivity).
  split; [exact Hmin|].
  exact (repeated_frame_is_dropped Primary (Demo.camera_frame 150)
           Demo.throttled Hmin).
Defined.

Lemma only_frames_reach_the_integrator_witness :
  is_pointcloud_request Req_generate_mesh = false /\
  tsdf_integrator_ (handle Req_generate_mesh Demo.exporting)
  = tsdf_integrator_ Demo.exporting.
Proof.
  assert (Hreq : is_pointcloud_request Req_generate_mesh = false)
    by reflexivity.
  split; [exact Hreq|].
  exact (proj1 (proj2 (proj2
           (only_frames_reach_the_integrator Req_generate_mesh
              Demo.exporting Hreq)))).
Defined.

(** The throttle at work: of three frames 50 ns apart, the first and the
    third are integrated. *)
Example throttle_example :
  let w :=
    run [Req_pointcloud Primary (Demo.camera_frame 150);
         Req_pointcloud Primary (Demo.camera_frame 200);
         Req_pointcloud Primary (Demo.camera_frame 250)] Demo.throttled in
  tsdf_integrator_ w = 2%nat /\
  insertPointcloud_last_msg_time w = Demo.stamp_of 250.
Proof. vm_compute. split; reflexivity. Qed.
